(** * Intraday-Scanner: the scoring cores of [scanner.py] and [trend.py]

    A shallow embedding of the decision logic of the two scripts, and the
    properties of the specification that concern it.

    Conventions of the embedding.
    - A Python [float] (and an [int] used as a number) is an exact rational
      of [Q]; every constant the code adds to a score is a multiple of 1/2,
      so the sums the code forms are the same in binary64.  NaN and the
      infinities are not values of the model.
    - Python's [None] in a place where the code tests for it is [None] of
      [option].
    - A [dict] is an association list in insertion order with distinct keys
      (the order is what [.items()] and [.values()] iterate in).
    - A [try]/[except] block that swallows every exception is a function
      into [option]; an exception that can leave a function is [Raised] of
      [outcome].
    - The data providers (yfinance, pandas_ta, the HTTP snapshot) are
      section variables. *)

From Stdlib Require Import Ascii String QArith Qabs ZArith List Bool Lia Lqa.
From Stdlib Require Import Sorting.Sorted Sorting.Permutation.
From Stdlib Require Floats.
Import ListNotations.
Local Open Scope Q_scope.

(** ** Python numbers and exceptions *)

Module Py.

(** [x > y] on numbers, as a boolean. *)
Definition gtb (x y : Q) : bool := negb (Qle_bool x y).

(** [x < y] on numbers, as a boolean. *)
Definition ltb (x y : Q) : bool := gtb y x.

(** [x >= y] on numbers, as a boolean. *)
Definition geb (x y : Q) : bool := Qle_bool y x.

(** [x == 0] on numbers. *)
Definition is_zero (x : Q) : bool := Qeq_bool x 0.

(** The built-in [sum] over a list of [bool]s: [True] counts 1. *)
Definition sum_bools (l : list bool) : Z :=
  fold_left (fun acc b => (acc + Z.b2z b)%Z) l 0%Z.

(** The exceptions that can leave the modelled functions. *)
Inductive exn : Type :=
| AttributeError
| TypeError
| ProviderError.

Inductive outcome (A : Type) : Type :=
| Returned (a : A)
| Raised (e : exn).
Arguments Returned {A} a.
Arguments Raised {A} e.

Definition bind {A B : Type} (m : outcome A) (k : A -> outcome B) : outcome B :=
  match m with
  | Returned a => k a
  | Raised e => Raised e
  end.

(** [l[-n:]]-style access: the last [n] elements ([DataFrame.tail(n)]). *)
Definition tail_n {A : Type} (n : nat) (l : list A) : list A :=
  skipn (length l - n) l.

(** Descending order of the keys, as [sorted(..., reverse=True)] and
    [sort_values(ascending=False)] leave them. *)
Definition desc {A : Type} (key : A -> Q) (a b : A) : Prop := key b <= key a.

(** [seq.iloc[-k]] for [k >= 1]: the k-th element from the end, [None]
    where pandas raises IndexError. *)
Definition iloc_neg {A : Type} (k : nat) (l : list A) : option A :=
  nth_error (rev l) (k - 1).

End Py.

(** ** scanner.py *)

Module Scanner.

Inductive Signal : Type := BUY | WATCH | SKIP.

Definition Signal_eqb (a b : Signal) : bool :=
  match a, b with
  | BUY, BUY | WATCH, WATCH | SKIP, SKIP => true
  | _, _ => false
  end.

(** One row of the frame yfinance returns; a cell is [None] where the
    frame holds NaN.  [raw_other] holds the cells of the frame's further
    columns (Dividends, Stock Splits and whatever else the provider
    adds): the code reads none of them, but [dropna] looks at them. *)
Record RawBar : Type := mkRawBar {
  raw_Open : option Q;
  raw_High : option Q;
  raw_Low : option Q;
  raw_Close : option Q;
  raw_Volume : option Q;
  raw_other : list (option Q)
}.

(** The cells of a row, column by column. *)
Definition cells (b : RawBar) : list (option Q) :=
  raw_Open b :: raw_High b :: raw_Low b :: raw_Close b :: raw_Volume b
  :: raw_other b.

(** A row that survived [dropna]. *)
Record Bar : Type := mkBar {
  Open : Q;
  High : Q;
  Low : Q;
  Close : Q;
  Volume : Q
}.

(** Whether a cell holds a value. *)
Definition notnull (cell : option Q) : bool :=
  match cell with
  | Some _ => true
  | None => false
  end.

(** A row with no missing cell in any column, as the bar it holds. *)
Definition valid_bar (b : RawBar) : option Bar :=
  match raw_Open b, raw_High b, raw_Low b, raw_Close b, raw_Volume b with
  | Some o, Some h, Some l, Some c, Some v =>
      if forallb notnull (raw_other b) then Some (mkBar o h l c v) else None
  | _, _, _, _, _ => None
  end.

(** [DF.dropna()]: rows with a missing cell in any column are removed,
    order kept. *)
Fixpoint dropna (data : list RawBar) : list Bar :=
  match data with
  | [] => []
  | b :: rest =>
      match valid_bar b with
      | Some v => v :: dropna rest
      | None => dropna rest
      end
  end.

(** The columns pandas_ta appends, read at the last row.  A cell that
    is NaN (RSI and ADX of a flat series) is not a value of the model;
    the code compares such a cell with [>] only, which is False on NaN,
    and the properties of the signal below are worded with [>] and its
    negation so that they read the same there. *)
Record Indicators : Type := mkIndicators {
  EMA_20 : Q;
  EMA_50 : Q;
  RSI : Q;
  ADX : Q
}.

Record SignalResult : Type := mkSignalResult {
  ticker : string;
  current_price : Q;
  open_price : Q;
  high : Q;
  low : Q;
  (** [None] where numpy's division by a zero close gives inf or nan *)
  price_change_pct : option Q;
  volume_ratio : Q;
  rsi : Q;
  ema_20 : Q;
  ema_50 : Q;
  adx : Q;
  is_uptrend : bool;
  ema_bullish : bool;
  strong_trend : bool;
  signal : Signal;
  signal_score : Z
}.

(** The "Trading signals" and "Overall signal" blocks of
    [get_latest_indicators] (lines 46-59): the three booleans, their count
    and the signal. *)
Record Classification : Type := mkClassification {
  c_is_uptrend : bool;
  c_ema_bullish : bool;
  c_strong_trend : bool;
  c_signal_score : Z;
  c_signal : Signal
}.

Definition classify (latest : Indicators) : Classification :=
  let is_uptrend := Py.gtb (RSI latest) 50 in
  let ema_bullish := Py.gtb (EMA_20 latest) (EMA_50 latest) in
  let strong_trend := Py.gtb (ADX latest) 25 in
  let signal_score := Py.sum_bools [is_uptrend; ema_bullish; strong_trend] in
  let signal :=
    if (2 <=? signal_score)%Z && is_uptrend then BUY
    else if (2 <=? signal_score)%Z then WATCH
    else SKIP in
  mkClassification is_uptrend ema_bullish strong_trend signal_score signal.

Definition Qsum (l : list Q) : Q := fold_left Qplus l 0.

(** [Series.mean()] of a non-empty column. *)
Definition mean (l : list Q) : Q := Qsum l / inject_Z (Z.of_nat (length l)).

Section Providers.

(** [yf.Ticker(ticker).history(...)]: the daily frame, or [None] when the
    call raises or returns [None]. *)
Variable price_history : string -> option (list RawBar).

(** The four [DF.ta.*] calls and the read of their columns at the last
    row; [None] when any of them raises (a missing column included). *)
Variable technical : list Bar -> option Indicators.

(** [get_latest_indicators]: the whole body runs under one [try] whose
    handler returns [None], so every failure is [None]. *)
Definition get_latest_indicators (tk : string) : option SignalResult :=
  match price_history tk with
  | None => None
  | Some data =>
      if (length data =? 0)%nat then None
      else
        let DF := dropna data in
        if (length DF <? 50)%nat then None
        else
          match technical DF, Py.iloc_neg 1 DF, Py.iloc_neg 2 DF with
          | Some ind, Some latest, Some prev =>
              let price_change_pct :=
                if Py.is_zero (Close prev) then None
                else Some ((Close latest - Close prev) / Close prev * 100) in
              let vol20 := mean (map Volume (Py.tail_n 20 DF)) in
              let volume_ratio :=
                if Py.gtb vol20 0 then Volume latest / vol20 else 0 in
              let c := classify ind in
              Some (mkSignalResult tk (Close latest) (Open latest)
                      (High latest) (Low latest) price_change_pct
                      volume_ratio (RSI ind) (EMA_20 ind) (EMA_50 ind)
                      (ADX ind) (c_is_uptrend c) (c_ema_bullish c)
                      (c_strong_trend c) (c_signal c) (c_signal_score c))
          | _, _, _ => None
          end
  end.

(** [scan_stocks]: the loop appends every truthy result; a result is a
    non-empty dict or [None]. *)
Definition scan_stocks (stock_list : list string) : list SignalResult :=
  fold_left
    (fun results tk =>
       match get_latest_indicators tk with
       | Some data => results ++ [data]
       | None => results
       end)
    stock_list [].

(** The successes of a list of tickers, in input order: what the
    specification says the scan collects. *)
Fixpoint successes (stock_list : list string) : list SignalResult :=
  match stock_list with
  | [] => []
  | tk :: rest =>
      match get_latest_indicators tk with
      | Some r => r :: successes rest
      | None => successes rest
      end
  end.

End Providers.

(** [sorted(l, key=key, reverse=True)]: a stable sort into descending key
    order (equal keys keep their input order). *)
Fixpoint insert_desc {A : Type} (key : A -> Q) (x : A) (l : list A) : list A :=
  match l with
  | [] => [x]
  | y :: rest =>
      if Py.geb (key x) (key y) then x :: y :: rest
      else y :: insert_desc key x rest
  end.

Definition sorted_desc {A : Type} (key : A -> Q) (l : list A) : list A :=
  fold_right (fun x acc => insert_desc key x acc) [] l.

(** What [display_scan_results] produces: the rows of the two printed
    tables, in print order (a row is kept as the result it formats), and
    the pair of lists it returns. *)
Record ScanReport : Type := mkScanReport {
  buy_table : list SignalResult;
  watch_table : list SignalResult;
  returned : list SignalResult * list SignalResult
}.

(** [display_scan_results] (lines 104-148).  A table is printed only for
    a non-empty partition. *)
Definition display_scan_results (results : list SignalResult) : ScanReport :=
  let buy_signals := filter (fun r => Signal_eqb (signal r) BUY) results in
  let watch_signals := filter (fun r => Signal_eqb (signal r) WATCH) results in
  let buy_rows :=
    if (length buy_signals =? 0)%nat then []
    else sorted_desc rsi buy_signals in
  let watch_rows :=
    if (length watch_signals =? 0)%nat then []
    else sorted_desc (fun r => inject_Z (signal_score r)) watch_signals in
  mkScanReport buy_rows watch_rows (buy_signals, watch_signals).

End Scanner.

(** ** trend.py *)

Module Trend.

Local Open Scope string_scope.
Local Open Scope list_scope.

(** *** Config / symbols *)

Definition US_SYMBOLS : list (string * string) :=
  [("S&P500", "^GSPC"); ("Dow", "^DJI"); ("Nasdaq", "^IXIC")].

Definition ASIA_SYMBOLS : list (string * string) :=
  [("Nikkei", "^N225"); ("HangSeng", "^HSI")].

Definition INDIA_VIX : string := "^INDIAVIX".

Definition DEFAULT_STOCK_POOL : list string :=
  ["RELIANCE.NS"; "TCS.NS"; "HDFCBANK.NS"; "INFY.NS"; "ICICIBANK.NS";
   "HINDUNILVR.NS"; "SBIN.NS"; "BHARTIARTL.NS"; "ITC.NS"; "KOTAKBANK.NS";
   "LT.NS"; "AXISBANK.NS"; "BAJFINANCE.NS"; "WIPRO.NS"; "ASIANPAINT.NS";
   "MARUTI.NS"; "TITAN.NS"; "SUNPHARMA.NS"; "ULTRACEMCO.NS"; "NESTLEIND.NS";
   "HCLTECH.NS"; "TATAMOTORS.NS"; "POWERGRID.NS"; "NTPC.NS"; "TECHM.NS";
   "BAJAJFINSV.NS"; "ONGC.NS"; "M&M.NS"; "ADANIPORTS.NS"; "DIVISLAB.NS"].


(** *** Helpers *)

(** [pct_change]: the division raises ZeroDivisionError exactly when
    [prev] is zero, and the handler turns that into [None].  The value is
    exact here where binary64 rounds it; whether there is a value, and its
    sign, are the same. *)
Definition pct_change (curr prev : Q) : option Q :=
  if Py.is_zero prev then None
  else Some ((curr - prev) / prev * 100).

Record ReferenceQuote : Type := mkQuote {
  q_symbol : string;
  last_close : Q;
  latest : Q;
  pct : option Q
}.

(** The body of the loop of [fetch_yf_symbols] (and of [fetch_india_vix])
    on the closes of [ticker.history(period="2d")]. *)
Definition fetch_quote (sym : string) (hist : list Q) : option ReferenceQuote :=
  if (List.length hist =? 0)%nat then None
  else
    let last_close :=
      if (2 <=? List.length hist)%nat then Py.iloc_neg 2 hist
      else Py.iloc_neg 1 hist in
    let latest := Py.iloc_neg 1 hist in
    match last_close, latest with
    | Some lc, Some lt => Some (mkQuote sym lc lt (pct_change lt lc))
    | _, _ => None
    end.

(** *** Scoring logic *)

(** One entry of [details]; the text the code formats is kept as its
    parts. *)
Inductive Detail : Type :=
| Up (name : string) (p : Q)
| Down (name : string) (p : Q)
| GiftNifty (value : Q)
| VixUp (p : Q)
| VixDown (p : Q).

(** The running [(score, details)] pair of [score_market]. *)
Definition Acc : Type := (Q * list Detail)%type.

(** One pass of either [for name, info in ....items()] loop; [w] is the
    weight the loop adds or subtracts. *)
Definition score_step (w : Q) (acc : Acc)
    (item : string * option ReferenceQuote) : Acc :=
  let '(score, details) := acc in
  let '(name, info) := item in
  match info with
  | Some i =>
      match pct i with
      | Some p =>
          if Py.gtb p 0 then (score + w, details ++ [Up name p])
          else (score - w, details ++ [Down name p])
      | None => acc
      end
  | None => acc
  end.

(** [score_market]; [gift] is the scraped dict's ["value"], when there is
    a dict. *)
Definition score_market
    (us_data asia_data : list (string * option ReferenceQuote))
    (gift : option Q) (vix : option ReferenceQuote) : Acc :=
  let acc := (0, []) in
  let acc := fold_left (score_step 1) us_data acc in
  let acc := fold_left (score_step (1 # 2)) asia_data acc in
  let acc :=
    match gift with
    | Some value =>
        if Py.is_zero value then acc
        else (fst acc, snd acc ++ [GiftNifty value])
    | None => acc
    end in
  match vix with
  | Some v =>
      match pct v with
      | Some p =>
          if Py.gtb p 3 then (fst acc - (3 # 2), snd acc ++ [VixUp p])
          else if Py.ltb p (-2) then (fst acc + (1 # 2), snd acc ++ [VixDown p])
          else acc
      | None => acc
      end
  | None => acc
  end.

Inductive Bias : Type := BULLISH | BEARISH | NEUTRAL.

(** The conditional expression of [run_scan] that names the bias. *)
Definition bias_of (score : Q) : Bias :=
  if Py.gtb score 1 then BULLISH
  else if Py.ltb score (-1) then BEARISH
  else NEUTRAL.

(** *** The pre-open snapshot: JSON values as [r.json()] returns them

    A JSON number without fraction or exponent is a Python [int]
    ([JInt]), any other number a [float] ([JNum]). *)

Unset Elimination Schemes.
Inductive json : Type :=
| JNull
| JBool (b : bool)
| JInt (z : Z)
| JNum (q : Q)
| JStr (s : string)
| JList (l : list json)
| JDict (d : list (string * json)).
Set Elimination Schemes.

(** Python truthiness. *)
Definition truthy (v : json) : bool :=
  match v with
  | JNull => false
  | JBool b => b
  | JInt z => negb (z =? 0)%Z
  | JNum q => negb (Py.is_zero q)
  | JStr s => negb (String.eqb s "")
  | JList l => negb (List.length l =? 0)%nat
  | JDict d => negb (List.length d =? 0)%nat
  end.

(** [a or b]. *)
Definition por (a b : json) : json := if truthy a then a else b.

(** [d.get(k)]: [None] (here [JNull]) when the key is missing. *)
Fixpoint get (d : list (string * json)) (k : string) : json :=
  match d with
  | [] => JNull
  | (k', v) :: rest => if String.eqb k k' then v else get rest k
  end.

(** [k in d]. *)
Definition contains (d : list (string * json)) (k : string) : bool :=
  existsb (fun kv => String.eqb k (fst kv)) d.

(** [isinstance(v, list)]. *)
Definition is_list (v : json) : bool :=
  match v with
  | JList _ => true
  | _ => false
  end.

Definition items_of (v : json) : list json :=
  match v with
  | JList l => l
  | _ => []
  end.

(** The [for v in preopen_data.values()] loop with its [break]. *)
Fixpoint first_list_value (d : list (string * json)) : list json :=
  match d with
  | [] => []
  | (_, v) :: rest => if is_list v then items_of v else first_list_value rest
  end.

(** The choice of [rows] (lines 177-192), under [if preopen_data:]. *)
Definition select_rows (preopen_data : json) : list json :=
  match preopen_data with
  | JDict d =>
      if contains d "data" && is_list (get d "data")
      then items_of (get d "data")
      else if contains d "result" && is_list (get d "result")
           then items_of (get d "result")
      else first_list_value d
  | JList l => l
  | _ => []
  end.

Record GapCandidate : Type := mkCandidate {
  symbol : json;
  prev_close : Q;
  preopen : Q;
  gap_pct : option Q;
  qty : option Q
}.

(** [s.replace(".NS", "")]. *)
Fixpoint strip_NS (s : string) : string :=
  match s with
  | String "."%char (String "N"%char (String "S"%char rest)) => strip_NS rest
  | String c rest => String c (strip_NS rest)
  | EmptyString => EmptyString
  end.

(** The least magnitude of an [int] on which [float] raises
    OverflowError: 2^1024 - 2^970, from where the nearest double would be
    2^1024. *)
Definition INT_OVERFLOW : Z := Z.shiftl 18014398509481983 970.

Section Providers.

(** [float(s)] on a [str]: the number, or [None] for ValueError. *)
Variable float_of_str : string -> option Q.

(** [yf.Ticker(s).history(period="2d")['Close']], oldest first; [None]
    when the call raises. *)
Variable history : string -> option (list Q).

(** [float(v)]: [None] for the TypeError, ValueError or OverflowError it
    raises. *)
Definition to_float (v : json) : option Q :=
  match v with
  | JInt z =>
      if (INT_OVERFLOW <=? Z.abs z)%Z then None else Some (inject_Z z)
  | JNum q => Some q
  | JBool b => Some (if b then 1 else 0)
  | JStr s => float_of_str s
  | JNull | JList _ | JDict _ => None
  end.

(** What one pass of [for r in rows] does. *)
Inductive RowStep : Type :=
| Append (c : GapCandidate)
| Continue
| Escapes (e : Py.exn).

(** The body of [for r in rows] (lines 195-213).  [r.get] is outside the
    [try], so a row that is not a dict raises AttributeError out of the
    function. *)
Definition row_step (r : json) : RowStep :=
  match r with
  | JDict d =>
      let sym := por (por (get d "symbol") (get d "scrip")) (get d "name") in
      match to_float (por (por (por (get d "prev_close") (get d "prevClose"))
                             (get d "previousClose")) (JInt 0)) with
      | None => Continue
      | Some prev =>
          match to_float (por (por (por (get d "open") (get d "preopen_price"))
                                 (get d "preopen")) (JNum prev)) with
          | None => Continue
          | Some op =>
              match to_float (por (por (por (get d "qty") (get d "quantity"))
                                     (get d "tradedQty")) (JInt 0)) with
              | None => Continue
              | Some qty =>
                  if negb (truthy sym) then Continue
                  else
                    let gap :=
                      if Py.gtb prev 0 then pct_change op prev else Some 0 in
                    Append (mkCandidate sym prev op gap (Some qty))
              end
          end
      end
  | _ => Escapes Py.AttributeError
  end.

Fixpoint snapshot_loop (rows : list json) (candidates : list GapCandidate)
    : Py.outcome (list GapCandidate) :=
  match rows with
  | [] => Py.Returned candidates
  | r :: rest =>
      match row_step r with
      | Append c => snapshot_loop rest (candidates ++ [c])
      | Continue => snapshot_loop rest candidates
      | Escapes e => Py.Raised e
      end
  end.

(** The body of [for s in pool] (lines 217-233); every exception is
    swallowed by [continue]. *)
Definition pool_step (s : string) : option GapCandidate :=
  match history s with
  | None => None
  | Some hist =>
      if (List.length hist <? 2)%nat then None
      else
        match Py.iloc_neg 2 hist, Py.iloc_neg 1 hist with
        | Some prev, Some latest =>
            Some (mkCandidate (JStr (strip_NS s)) prev latest
                    (pct_change latest prev) None)
        | _, _ => None
        end
  end.

Definition pool_loop (pool : list string) (candidates : list GapCandidate)
    : list GapCandidate :=
  fold_left
    (fun cands s =>
       match pool_step s with
       | Some c => cands ++ [c]
       | None => cands
       end)
    pool candidates.

(** Lines 173-213: the candidates the snapshot gives. *)
Definition snapshot_candidates (preopen_data : json)
    : Py.outcome (list GapCandidate) :=
  if truthy preopen_data
  then snapshot_loop (select_rows preopen_data) []
  else Py.Returned [].

(** The candidates as they stand at line 235. *)
Definition collect_candidates (preopen_data : json) (pool : list string)
    : Py.outcome (list GapCandidate) :=
  Py.bind (snapshot_candidates preopen_data)
    (fun candidates =>
       Py.Returned
         (if (List.length candidates =? 0)%nat
          then pool_loop pool candidates
          else candidates)).

End Providers.

(** *** Ranking: the DataFrame of lines 236-250

    A cell of a numeric column is [Some] number or [None] for a missing
    value (None or NaN); arithmetic on a missing cell is missing. *)

Record WatchRow : Type := mkWatchRow {
  w_symbol : json;
  w_prev_close : Q;
  w_preopen : Q;
  w_gap_pct : option Q;
  w_qty : option Q;
  abs_gap : option Q;
  qty_norm : option Q;
  score : option Q
}.

Definition is_some {A : Type} (o : option A) : bool :=
  match o with
  | Some _ => true
  | None => false
  end.

(** The cells of a column that hold a number. *)
Fixpoint present (col : list (option Q)) : list Q :=
  match col with
  | [] => []
  | Some q :: rest => q :: present rest
  | None :: rest => present rest
  end.

(** [Series.min()] and [Series.max()]: missing cells are skipped; [None]
    when no cell holds a number. *)
Definition col_min (col : list (option Q)) : option Q :=
  match present col with
  | [] => None
  | x :: rest =>
      Some (fold_left (fun m y => if Py.ltb y m then y else m) rest x)
  end.

Definition col_max (col : list (option Q)) : option Q :=
  match present col with
  | [] => None
  | x :: rest =>
      Some (fold_left (fun m y => if Py.gtb y m then y else m) rest x)
  end.

(** The literal [1e-9]. *)
Definition EPS : Q := 1 # 1000000000.

(** One cell of [(df['qty'] - df['qty'].min()) /
    (df['qty'].max() - df['qty'].min() + 1e-9)].  The quotient is exact
    here; binary64 rounds it, and from a range of 2^24 on the [1e-9] is
    lost in the sum, so that the maximum then gives exactly 1.  What is
    proved of it below (0 for the minimum, between 0 and 1) holds of
    both.  Quantities are finite numbers; a range [max - min] that
    overflows is outside the model. *)
Definition norm_cell (mn mx q : option Q) : option Q :=
  match q, mn, mx with
  | Some q, Some mn, Some mx => Some ((q - mn) / (mx - mn + EPS))
  | _, _, _ => None
  end.

(** One cell of [df['abs_gap'] * 0.7 + df['qty_norm'] * 0.3], exact
    here where binary64 rounds the two products and the sum. *)
Definition score_cell (abs_gap qty_norm : option Q) : option Q :=
  match abs_gap, qty_norm with
  | Some a, Some n => Some (a * (7 # 10) + n * (3 # 10))
  | _, _ => None
  end.

(** Lines 240-247: the three columns added to the frame. *)
Definition add_columns (candidates : list GapCandidate) : list WatchRow :=
  let qtys := map qty candidates in
  let any_qty := existsb is_some qtys in
  let mn := col_min qtys in
  let mx := col_max qtys in
  map (fun c =>
         let abs_gap := option_map Qabs (gap_pct c) in
         let qty_norm :=
           if any_qty then norm_cell mn mx (qty c) else Some 0 in
         mkWatchRow (symbol c) (prev_close c) (preopen c) (gap_pct c) (qty c)
           abs_gap qty_norm (score_cell abs_gap qty_norm))
      candidates.

(** The key [sort_values] orders the rows with a score by. *)
Definition score_key (w : WatchRow) : Q :=
  match score w with
  | Some s => s
  | None => 0
  end.

(** [df.sort_values('score', ascending=False)]: descending score, the
    rows without a score last.  pandas leaves the order of rows with equal
    scores open; here they keep their input order. *)
Definition sort_values_desc (rows : list WatchRow) : list WatchRow :=
  Scanner.sorted_desc score_key (filter (fun w => is_some (score w)) rows)
  ++ filter (fun w => negb (is_some (score w))) rows.

(** [df.head(n)]: the first [n] rows, or all but the last [-n] for a
    negative [n]. *)
Definition head {A : Type} (n : Z) (rows : list A) : list A :=
  if (0 <=? n)%Z then firstn (Z.to_nat n) rows
  else firstn (List.length rows - Z.to_nat (- n)) rows.

(** Lines 236-251.  A [gap_pct] column whose every cell is [None] has
    dtype object, and [.abs()] on it raises TypeError. *)
Definition rank (candidates : list GapCandidate) (top_n : Z)
    : Py.outcome (list WatchRow) :=
  if (List.length candidates =? 0)%nat then Py.Returned []
  else if forallb (fun c => negb (is_some (gap_pct c))) candidates
       then Py.Raised Py.TypeError
  else Py.Returned (head top_n (sort_values_desc (add_columns candidates))).

Section Ranker.

Variable float_of_str : string -> option Q.
Variable history : string -> option (list Q).

(** [analyze_preopen_and_pick_stocks]. *)
Definition analyze_preopen_and_pick_stocks
    (preopen_data : json) (pool : list string) (top_n : Z)
    : Py.outcome (list WatchRow) :=
  Py.bind (collect_candidates float_of_str history preopen_data pool)
    (fun candidates => rank candidates top_n).

(** [fetch_yf_symbols]: no handler here, a failing provider raises. *)
Fixpoint fetch_yf_symbols (symbols : list (string * string))
    : Py.outcome (list (string * option ReferenceQuote)) :=
  match symbols with
  | [] => Py.Returned []
  | (name, sym) :: rest =>
      match history sym with
      | None => Py.Raised Py.ProviderError
      | Some hist =>
          Py.bind (fetch_yf_symbols rest)
            (fun out => Py.Returned ((name, fetch_quote sym hist) :: out))
      end
  end.

(** [fetch_india_vix]. *)
Definition fetch_india_vix : Py.outcome (option ReferenceQuote) :=
  match history INDIA_VIX with
  | None => Py.Raised Py.ProviderError
  | Some hist => Py.Returned (fetch_quote INDIA_VIX hist)
  end.

Record ScanOutput : Type := mkScanOutput {
  out_score : Q;
  out_bias : Bias;
  out_details : list Detail;
  out_watch : list WatchRow
}.

(** [run_scan] without its printing; [gift] and [preopen] are what
    [scrape_gift_nifty] and [fetch_preopen_fo] returned. *)
Definition run_scan (gift : option Q) (preopen : json)
    : Py.outcome ScanOutput :=
  Py.bind (fetch_yf_symbols US_SYMBOLS) (fun us =>
  Py.bind (fetch_yf_symbols ASIA_SYMBOLS) (fun asia =>
  Py.bind fetch_india_vix (fun vix =>
  let '(score, details) := score_market us asia gift vix in
  let bias := bias_of score in
  Py.bind (analyze_preopen_and_pick_stocks preopen DEFAULT_STOCK_POOL 6)
    (fun watch => Py.Returned (mkScanOutput score bias details watch))))).

End Ranker.

End Trend.

(** ** The scoring rule of the specification (section 4.4)

    The bias score as the specification words it: a sum of independent
    contributions, one per quote.  [Trend.score_market] is compared with
    it below. *)

Module BiasSpec.

Import Trend.

(** A quote weighs [+w] when its pct_change is positive, [-w] otherwise,
    and nothing when the quote or its pct_change is unavailable. *)
Definition quote_contribution (w : Q) (info : option ReferenceQuote) : Q :=
  match info with
  | Some i =>
      match pct i with
      | Some p => if Py.gtb p 0 then w else - w
      | None => 0
      end
  | None => 0
  end.

(** The fact a quote adds to the details: none when it is skipped. *)
Definition quote_detail (item : string * option ReferenceQuote) : list Detail :=
  match snd item with
  | Some i =>
      match pct i with
      | Some p => if Py.gtb p 0 then [Up (fst item) p] else [Down (fst item) p]
      | None => []
      end
  | None => []
  end.

(** The volatility index: -1.5 above +3%, else +0.5 below -2%, else
    nothing. *)
Definition volatility_contribution (vix : option ReferenceQuote) : Q :=
  match vix with
  | Some v =>
      match pct v with
      | Some p =>
          if Py.gtb p 3 then - (3 # 2)
          else if Py.ltb p (-2) then 1 # 2
          else 0
      | None => 0
      end
  | None => 0
  end.

Definition volatility_detail (vix : option ReferenceQuote) : list Detail :=
  match vix with
  | Some v =>
      match pct v with
      | Some p =>
          if Py.gtb p 3 then [VixUp p]
          else if Py.ltb p (-2) then [VixDown p]
          else []
      | None => []
      end
  | None => []
  end.

(** The auxiliary value: a note, no weight. *)
Definition auxiliary_detail (gift : option Q) : list Detail :=
  match gift with
  | Some value => if Py.is_zero value then [] else [GiftNifty value]
  | None => []
  end.

(** The sum of a list of contributions. *)
Definition total (l : list Q) : Q := fold_right Qplus 0 l.

Definition contributions (w : Q)
    (quotes : list (string * option ReferenceQuote)) : list Q :=
  map (fun item => quote_contribution w (snd item)) quotes.

End BiasSpec.

(** ** The ranking rule, as the code has it (section 4.5) *)

Module RankSpec.

Import Trend.


(** The pre-open snapshot of the specification's example: gaps of +5%
    (quantity 100) and -8% (quantity 50). *)
Definition example_snapshot : json :=
  JList
    [JDict [("symbol", JStr "UP5"); ("prev_close", JNum 100);
            ("open", JNum 105); ("qty", JNum 100)]%string;
     JDict [("symbol", JStr "DOWN8"); ("prev_close", JNum 100);
            ("open", JNum 92); ("qty", JNum 50)]%string].

End RankSpec.

(** ** Facts about the Python helpers *)

Module PyFacts.

Lemma gtb_true (x y : Q) : Py.gtb x y = true <-> y < x.
Proof.
  unfold Py.gtb. rewrite negb_true_iff, <- not_true_iff_false, Qle_bool_iff.
  split; [apply Qnot_le_lt | apply Qlt_not_le].
Qed.

Lemma gtb_false (x y : Q) : Py.gtb x y = false <-> x <= y.
Proof.
  unfold Py.gtb. rewrite negb_false_iff. apply Qle_bool_iff.
Qed.

Lemma ltb_true (x y : Q) : Py.ltb x y = true <-> x < y.
Proof. unfold Py.ltb. apply gtb_true. Qed.

Lemma ltb_false (x y : Q) : Py.ltb x y = false <-> y <= x.
Proof. unfold Py.ltb. apply gtb_false. Qed.

Lemma geb_true (x y : Q) : Py.geb x y = true <-> y <= x.
Proof. unfold Py.geb. apply Qle_bool_iff. Qed.

Lemma geb_false (x y : Q) : Py.geb x y = false <-> x < y.
Proof.
  unfold Py.geb. rewrite <- not_true_iff_false, Qle_bool_iff.
  split; [apply Qnot_le_lt | apply Qlt_not_le].
Qed.

Lemma is_zero_true (x : Q) : Py.is_zero x = true <-> x == 0.
Proof. unfold Py.is_zero. apply Qeq_bool_iff. Qed.

Lemma is_zero_false (x : Q) : Py.is_zero x = false <-> ~ x == 0.
Proof.
  unfold Py.is_zero. rewrite <- not_true_iff_false, Qeq_bool_iff. tauto.
Qed.

Lemma insert_desc_perm {A : Type} (key : A -> Q) (x : A) (l : list A) :
  Permutation (Scanner.insert_desc key x l) (x :: l).
Proof.
  induction l as [| y l IH]; simpl.
  - apply Permutation_refl.
  - destruct (Py.geb (key x) (key y)).
    + apply Permutation_refl.
    + eapply perm_trans; [apply perm_skip, IH | apply perm_swap].
Qed.

Lemma sorted_desc_perm {A : Type} (key : A -> Q) (l : list A) :
  Permutation (Scanner.sorted_desc key l) l.
Proof.
  unfold Scanner.sorted_desc.
  induction l as [| x l IH]; simpl.
  - apply perm_nil.
  - eapply perm_trans; [apply insert_desc_perm | apply perm_skip, IH].
Qed.

Lemma insert_desc_sorted {A : Type} (key : A -> Q) (x : A) (l : list A) :
  StronglySorted (Py.desc key) l ->
  StronglySorted (Py.desc key) (Scanner.insert_desc key x l).
Proof.
  induction 1 as [| y l Hs IH Hall]; simpl.
  - constructor; [constructor | constructor].
  - destruct (Py.geb (key x) (key y)) eqn:E.
    + apply geb_true in E.
      constructor; [constructor; assumption |].
      constructor; [exact E |].
      eapply Forall_impl; [| exact Hall].
      intros z Hz. unfold Py.desc in *. eapply Qle_trans; eassumption.
    + apply geb_false in E.
      constructor; [exact IH |].
      eapply Permutation_Forall.
      * apply Permutation_sym, insert_desc_perm.
      * constructor; [unfold Py.desc; apply Qlt_le_weak; exact E | exact Hall].
Qed.

Lemma sorted_desc_sorted {A : Type} (key : A -> Q) (l : list A) :
  StronglySorted (Py.desc key) (Scanner.sorted_desc key l).
Proof.
  unfold Scanner.sorted_desc.
  induction l as [| x l IH]; simpl.
  - constructor.
  - apply insert_desc_sorted, IH.
Qed.

(** The sort is stable: where every key is the same, nothing moves. *)
Lemma sorted_desc_constant {A : Type} (key : A -> Q) (k : Q) (l : list A) :
  Forall (fun a => key a == k) l -> Scanner.sorted_desc key l = l.
Proof.
  unfold Scanner.sorted_desc.
  induction 1 as [| x l Hx Hl IH]; simpl.
  - reflexivity.
  - rewrite IH. destruct l as [| y l']; simpl.
    + reflexivity.
    + replace (Py.geb (key x) (key y)) with true; [reflexivity |].
      symmetry. apply geb_true. inversion Hl; subst.
      rewrite Hx. match goal with H : key y == k |- _ => rewrite H end.
      apply Qle_refl.
Qed.

End PyFacts.

(** ** scanner.py: the signal classifier and the scan *)

Module ScannerProps.

Import Scanner.

Example classify_all_three :
  let c := classify (mkIndicators 110 100 60 30) in
  c_signal_score c = 3%Z /\ c_signal c = BUY.
Proof. split; reflexivity. Qed.

Example classify_asymmetric :
  let c := classify (mkIndicators 110 100 40 30) in
  c_signal_score c = 2%Z /\ c_is_uptrend c = false /\ c_signal c = WATCH.
Proof. repeat split; reflexivity. Qed.

Example classify_none :
  let c := classify (mkIndicators 90 100 45 10) in
  c_signal_score c = 0%Z /\ c_signal c = SKIP.
Proof. split; reflexivity. Qed.

(** C1.  For every indicator snapshot the classifier sets [is_uptrend] to
    RSI > 50, [ema_bullish] to EMA_fast > EMA_slow and [strong_trend] to
    ADX > 25; [signal_score] is the number of true ones among them, an
    integer from 0 to 3; the signal is BUY exactly when the score is at
    least 2 and [is_uptrend] holds, WATCH exactly when the score is at
    least 2 and [is_uptrend] fails, SKIP exactly when the score is below
    2; so a bullish EMA and a strong trend with RSI <= 50 give WATCH. *)
Theorem classify_spec (latest : Indicators) :
  let c := classify latest in
  (c_is_uptrend c = true <-> 50 < RSI latest)
  /\ (c_ema_bullish c = true <-> EMA_50 latest < EMA_20 latest)
  /\ (c_strong_trend c = true <-> 25 < ADX latest)
  /\ c_signal_score c
     = (Z.b2z (c_is_uptrend c) + Z.b2z (c_ema_bullish c)
        + Z.b2z (c_strong_trend c))%Z
  /\ (0 <= c_signal_score c <= 3)%Z
  /\ (c_signal c = BUY <-> (2 <= c_signal_score c)%Z /\ c_is_uptrend c = true)
  /\ (c_signal c = WATCH <->
      (2 <= c_signal_score c)%Z /\ c_is_uptrend c = false)
  /\ (c_signal c = SKIP <-> (c_signal_score c < 2)%Z)
  /\ (EMA_50 latest < EMA_20 latest -> 25 < ADX latest -> RSI latest <= 50 ->
      c_signal_score c = 2%Z /\ c_signal c = WATCH).
Proof.
  cbv zeta. unfold classify. cbn [c_is_uptrend c_ema_bullish c_strong_trend
                                  c_signal_score c_signal].
  repeat rewrite <- PyFacts.gtb_true. rewrite <- PyFacts.gtb_false.
  destruct (Py.gtb (RSI latest) 50), (Py.gtb (EMA_20 latest) (EMA_50 latest)),
    (Py.gtb (ADX latest) 25); cbn;
    repeat split; intros; try tauto; try lia; try discriminate;
    try congruence;
    repeat match goal with H : _ /\ _ |- _ => destruct H end;
    try lia; try discriminate.
Qed.

Section Scan.

Variable price_history : string -> option (list RawBar).
Variable technical : list Bar -> option Indicators.

(** A result carries the ticker it was asked for. *)
Lemma get_latest_ticker (tk : string) (r : SignalResult) :
  get_latest_indicators price_history technical tk = Some r -> ticker r = tk.
Proof.
  unfold get_latest_indicators. intros H.
  destruct (price_history tk) as [data |]; [| discriminate].
  destruct (length data =? 0)%nat; [discriminate |].
  destruct (length (dropna data) <? 50)%nat; [discriminate |].
  destruct (technical (dropna data)); [| discriminate].
  destruct (Py.iloc_neg 1 (dropna data)); [| discriminate].
  destruct (Py.iloc_neg 2 (dropna data)); [| discriminate].
  injection H as <-. reflexivity.
Qed.

(** A result carries the classification of its indicators. *)
Lemma get_latest_classified (tk : string) (r : SignalResult) :
  get_latest_indicators price_history technical tk = Some r ->
  exists ind,
    signal r = c_signal (classify ind)
    /\ signal_score r = c_signal_score (classify ind)
    /\ is_uptrend r = c_is_uptrend (classify ind)
    /\ rsi r = RSI ind.
Proof.
  unfold get_latest_indicators. intros H.
  destruct (price_history tk) as [data |]; [| discriminate].
  destruct (length data =? 0)%nat; [discriminate |].
  destruct (length (dropna data) <? 50)%nat; [discriminate |].
  destruct (technical (dropna data)) as [ind |]; [| discriminate].
  destruct (Py.iloc_neg 1 (dropna data)); [| discriminate].
  destruct (Py.iloc_neg 2 (dropna data)); [| discriminate].
  injection H as <-. exists ind. repeat split.
Qed.

Lemma scan_loop (stock_list : list string) (results : list SignalResult) :
  fold_left
    (fun results tk =>
       match get_latest_indicators price_history technical tk with
       | Some data => results ++ [data]
       | None => results
       end)
    stock_list results
  = results ++ successes price_history technical stock_list.
Proof.
  revert results.
  induction stock_list as [| tk rest IH]; intros results; simpl.
  - symmetry. apply app_nil_r.
  - rewrite IH. destruct (get_latest_indicators price_history technical tk).
    + rewrite <- app_assoc. reflexivity.
    + reflexivity.
Qed.

Lemma scan_successes (stock_list : list string) :
  scan_stocks price_history technical stock_list
  = successes price_history technical stock_list.
Proof. unfold scan_stocks. apply scan_loop. Qed.

Lemma successes_tickers (stock_list : list string) :
  map ticker (successes price_history technical stock_list)
  = filter (fun tk =>
              match get_latest_indicators price_history technical tk with
              | Some _ => true
              | None => false
              end) stock_list.
Proof.
  induction stock_list as [| tk rest IH]; simpl.
  - reflexivity.
  - destruct (get_latest_indicators price_history technical tk) eqn:E; simpl.
    + rewrite IH, (get_latest_ticker _ _ E). reflexivity.
    + exact IH.
Qed.

Lemma successes_results (stock_list : list string) (r : SignalResult) :
  In r (successes price_history technical stock_list) <->
  exists tk, In tk stock_list
             /\ get_latest_indicators price_history technical tk = Some r.
Proof.
  induction stock_list as [| tk rest IH]; simpl.
  - split; [tauto | intros (? & [] & _)].
  - destruct (get_latest_indicators price_history technical tk) eqn:E;
      simpl; rewrite IH; split.
    + intros [<- | (tk' & Hin & Hr)]; eauto.
    + intros (tk' & [<- | Hin] & Hr); [left; congruence | eauto].
    + intros (tk' & Hin & Hr); eauto.
    + intros (tk' & [<- | Hin] & Hr); [congruence | eauto].
Qed.

(** C5.  Whenever the price series is empty, or holds fewer than 50 bars
    once the bars with a missing value are dropped, the indicator engine
    returns absence: no snapshot, whatever the indicator library would
    compute, and (the function being total) no error. *)
Theorem insufficient_history_absent (tk : string) (data : list RawBar) :
  price_history tk = Some data ->
  data = [] \/ (length (dropna data) < 50)%nat ->
  get_latest_indicators price_history technical tk = None.
Proof.
  intros Hdata Hshort. unfold get_latest_indicators. rewrite Hdata.
  destruct (length data =? 0)%nat eqn:E0; [reflexivity |].
  destruct Hshort as [-> | Hlt]; [discriminate E0 |].
  apply Nat.ltb_lt in Hlt. rewrite Hlt. reflexivity.
Qed.

Lemma display_table (key : SignalResult -> Q) (part : list SignalResult) :
  let table := if (length part =? 0)%nat then [] else sorted_desc key part in
  Permutation table part /\ StronglySorted (Py.desc key) table.
Proof.
  cbv zeta. destruct (length part =? 0)%nat eqn:E.
  - apply Nat.eqb_eq in E. destruct part; [| discriminate].
    split; constructor.
  - split; [apply PyFacts.sorted_desc_perm | apply PyFacts.sorted_desc_sorted].
Qed.

(** C7.  For every list of instruments the scan returns exactly the
    results of the instruments whose indicator computation succeeded, in
    input order (a failure only leaves its instrument out); in the report
    the BUY table holds the BUY results sorted by RSI descending and the
    WATCH table the WATCH results sorted by signal_score descending (the
    pair of lists the function returns keeps the input order). *)
Theorem scan_collects_successes_in_order (stock_list : list string) :
  let results := scan_stocks price_history technical stock_list in
  let report := display_scan_results results in
  results = successes price_history technical stock_list
  /\ map ticker results
     = filter (fun tk =>
                 match get_latest_indicators price_history technical tk with
                 | Some _ => true
                 | None => false
                 end) stock_list
  /\ (forall r, In r results <->
       exists tk, In tk stock_list
                  /\ get_latest_indicators price_history technical tk = Some r)
  /\ Permutation (buy_table report)
       (filter (fun r => Signal_eqb (signal r) BUY) results)
  /\ StronglySorted (Py.desc rsi) (buy_table report)
  /\ Permutation (watch_table report)
       (filter (fun r => Signal_eqb (signal r) WATCH) results)
  /\ StronglySorted (Py.desc (fun r => inject_Z (signal_score r)))
       (watch_table report)
  /\ returned report
     = (filter (fun r => Signal_eqb (signal r) BUY) results,
        filter (fun r => Signal_eqb (signal r) WATCH) results).
Proof.
  cbv zeta. rewrite scan_successes.
  split; [reflexivity |].
  split; [apply successes_tickers |].
  split; [intros r; apply successes_results |].
  unfold display_scan_results. cbn [buy_table watch_table returned].
  pose proof (display_table rsi
    (filter (fun r => Signal_eqb (signal r) BUY)
       (successes price_history technical stock_list))) as [Hb1 Hb2].
  pose proof (display_table (fun r => inject_Z (signal_score r))
    (filter (fun r => Signal_eqb (signal r) WATCH)
       (successes price_history technical stock_list))) as [Hw1 Hw2].
  repeat split; assumption.
Qed.

(** A WATCH signal always comes with a score of 2. *)
Lemma classify_watch_score (ind : Indicators) :
  c_signal (classify ind) = WATCH -> c_signal_score (classify ind) = 2%Z.
Proof.
  unfold classify. cbn [c_signal c_signal_score].
  destruct (Py.gtb (RSI ind) 50), (Py.gtb (EMA_20 ind) (EMA_50 ind)),
    (Py.gtb (ADX ind) 25); cbn; intros H; try discriminate H; reflexivity.
Qed.

(** X6.  Every WATCH result has the same score, so the stable sort of
    the WATCH table moves nothing: the table lists the WATCH results of
    a scan in input order. *)
Lemma watch_table_input_order (stock_list : list string) :
  let results := scan_stocks price_history technical stock_list in
  watch_table (display_scan_results results)
  = filter (fun r => Signal_eqb (signal r) WATCH) results.
Proof.
  cbv zeta. unfold display_scan_results. cbn [watch_table].
  set (part := filter _ (scan_stocks price_history technical stock_list)).
  destruct (length part =? 0)%nat eqn:E.
  - apply Nat.eqb_eq in E. destruct part; [reflexivity | discriminate].
  - apply (PyFacts.sorted_desc_constant _ 2).
    apply Forall_forall. intros r Hr. subst part.
    apply filter_In in Hr. destruct Hr as [Hin Hw].
    rewrite scan_successes in Hin.
    apply successes_results in Hin. destruct Hin as (tk & _ & Hget).
    destruct (get_latest_classified tk r Hget) as (ind & Hs & Hsc & _).
    rewrite Hsc, classify_watch_score; [reflexivity |].
    rewrite <- Hs. destruct (signal r); try discriminate Hw. reflexivity.
Qed.

End Scan.

(** Fifty-four rows of which forty-nine are complete: too short a history,
    though the indicator library would report a BUY. *)
Lemma insufficient_history_absent_witness :
  let bar := mkRawBar (Some 10) (Some 11) (Some 9) (Some 10) (Some 1000)
               [Some 0; Some 0] in
  let gap := mkRawBar (Some 10) (Some 11) (Some 9) None (Some 1000)
               [Some 0; Some 0] in
  let data := repeat bar 49 ++ repeat gap 5 in
  get_latest_indicators (fun _ => Some data)
    (fun _ => Some (mkIndicators 110 100 60 30)) "TCS.NS" = None.
Proof.
  cbv zeta.
  apply (insufficient_history_absent _ _ "TCS.NS"
           (repeat (mkRawBar (Some 10) (Some 11) (Some 9) (Some 10)
                      (Some 1000) [Some 0; Some 0]) 49
            ++ repeat (mkRawBar (Some 10) (Some 11) (Some 9) None
                         (Some 1000) [Some 0; Some 0]) 5)).
  - reflexivity.
  - right. vm_compute. lia.
Defined.

End ScannerProps.

(** ** trend.py: the market bias *)

Module BiasProps.

Import Trend BiasSpec.

(** One pass of a scoring loop adds the quote's contribution and appends
    the quote's detail. *)
Lemma score_step_spec (w : Q) (acc : Acc)
    (item : string * option ReferenceQuote) :
  fst (score_step w acc item) == fst acc + quote_contribution w (snd item)
  /\ snd (score_step w acc item) = snd acc ++ quote_detail item.
Proof.
  destruct acc as [score details], item as [name [i |]]; simpl.
  - unfold quote_detail; simpl. destruct (pct i) as [p |]; simpl.
    + destruct (Py.gtb p 0); simpl; split; try reflexivity; ring.
    + split; [ring | symmetry; apply app_nil_r].
  - split; [ring | symmetry; apply app_nil_r].
Qed.

Lemma score_loop_spec (w : Q) (quotes : list (string * option ReferenceQuote))
    (acc : Acc) :
  fst (fold_left (score_step w) quotes acc)
  == fst acc + total (contributions w quotes)
  /\ snd (fold_left (score_step w) quotes acc)
     = snd acc ++ flat_map quote_detail quotes.
Proof.
  revert acc. induction quotes as [| item rest IH]; intros acc; simpl.
  - split; [ring | symmetry; apply app_nil_r].
  - destruct (IH (score_step w acc item)) as [IHs IHd].
    destruct (score_step_spec w acc item) as [Hs Hd].
    split.
    + rewrite IHs, Hs. ring.
    + rewrite IHd, Hd. symmetry. apply app_assoc.
Qed.

(** What the three blocks after the loops do to the accumulator. *)
Lemma score_tail_spec (acc : Acc) (gift : option Q)
    (vix : option ReferenceQuote) :
  let acc1 :=
    match gift with
    | Some value =>
        if Py.is_zero value then acc
        else (fst acc, snd acc ++ [GiftNifty value])
    | None => acc
    end in
  fst acc1 = fst acc /\ snd acc1 = snd acc ++ auxiliary_detail gift.
Proof.
  cbv zeta. destruct gift as [value |]; simpl.
  - destruct (Py.is_zero value); simpl; split; try reflexivity.
    symmetry; apply app_nil_r.
  - split; [reflexivity | symmetry; apply app_nil_r].
Qed.

Example three_primaries_up :
  let q := fun sym => Some (mkQuote sym 100 101 (Some 1)) in
  let us := [("S&P500", q "^GSPC"); ("Dow", q "^DJI");
             ("Nasdaq", q "^IXIC")]%string in
  let vix := Some (mkQuote INDIA_VIX 15 15 (Some 0)) in
  fst (score_market us [] None vix) == 3
  /\ bias_of (fst (score_market us [] None vix)) = BULLISH.
Proof. split; reflexivity. Qed.

(** C2.  The bias score is the sum of independent contributions: for each
    primary quote +1 when pct_change > 0 and -1 otherwise, for each
    secondary quote +0.5 or -0.5 likewise, a quote whose pct_change is
    unavailable adding neither score nor detail; for the volatility index
    -1.5 when pct_change > 3.0, else +0.5 when pct_change < -2.0, else
    nothing; and the auxiliary scraped value adds a detail only, never
    score. *)
Theorem score_market_additive
    (us_data asia_data : list (string * option ReferenceQuote))
    (gift : option Q) (vix : option ReferenceQuote) :
  fst (score_market us_data asia_data gift vix)
  == total (contributions 1 us_data) + total (contributions (1 # 2) asia_data)
     + volatility_contribution vix
  /\ snd (score_market us_data asia_data gift vix)
     = flat_map quote_detail us_data ++ flat_map quote_detail asia_data
       ++ auxiliary_detail gift ++ volatility_detail vix
  /\ (forall gift',
        fst (score_market us_data asia_data gift' vix)
        = fst (score_market us_data asia_data gift vix))
  /\ (forall w name i p, pct i = Some p ->
        (0 < p -> quote_contribution w (Some i) = w
                  /\ quote_detail (name, Some i) = [Up name p])
        /\ (p <= 0 -> quote_contribution w (Some i) = - w
                      /\ quote_detail (name, Some i) = [Down name p]))
  /\ (forall w name i, pct i = None ->
        quote_contribution w (Some i) = 0 /\ quote_detail (name, Some i) = [])
  /\ (forall w name,
        quote_contribution w None = 0 /\ quote_detail (name, None) = [])
  /\ (forall v p, pct v = Some p ->
        (3 < p -> volatility_contribution (Some v) = - (3 # 2))
        /\ (p <= 3 -> p < -2 -> volatility_contribution (Some v) = 1 # 2)
        /\ (p <= 3 -> -2 <= p -> volatility_contribution (Some v) = 0))
  /\ (forall v, pct v = None -> volatility_contribution (Some v) = 0)
  /\ volatility_contribution None = 0.
Proof.
  split; [| split; [| split]].
  - unfold score_market.
    set (a1 := fold_left (score_step 1) us_data (0, [])).
    set (a2 := fold_left (score_step (1 # 2)) asia_data a1).
    destruct (score_loop_spec 1 us_data (0, [])) as [H1 _].
    destruct (score_loop_spec (1 # 2) asia_data a1) as [H2 _].
    fold a1 in H1. fold a2 in H2. simpl fst in H1.
    destruct (score_tail_spec a2 gift vix) as [H3 _]. cbv zeta in H3.
    set (a3 := match gift with
               | Some value =>
                   if Py.is_zero value then a2
                   else (fst a2, snd a2 ++ [GiftNifty value])
               | None => a2
               end) in *.
    assert (Ha3 : fst a3 == total (contributions 1 us_data)
                           + total (contributions (1 # 2) asia_data)).
    { rewrite H3, H2, H1. ring. }
    unfold volatility_contribution.
    destruct vix as [v |]; [destruct (pct v) as [p |] |].
    + destruct (Py.gtb p 3); [simpl; rewrite Ha3; ring |].
      destruct (Py.ltb p (-2)); simpl; rewrite Ha3; ring.
    + rewrite Ha3; ring.
    + rewrite Ha3; ring.
  - unfold score_market.
    set (a1 := fold_left (score_step 1) us_data (0, [])).
    set (a2 := fold_left (score_step (1 # 2)) asia_data a1).
    destruct (score_loop_spec 1 us_data (0, [])) as [_ H1].
    destruct (score_loop_spec (1 # 2) asia_data a1) as [_ H2].
    fold a1 in H1. fold a2 in H2. simpl snd in H1.
    destruct (score_tail_spec a2 gift vix) as [_ H3]. cbv zeta in H3.
    set (a3 := match gift with
               | Some value =>
                   if Py.is_zero value then a2
                   else (fst a2, snd a2 ++ [GiftNifty value])
               | None => a2
               end) in *.
    assert (Ha3 : snd a3 = flat_map quote_detail us_data
                           ++ flat_map quote_detail asia_data
                           ++ auxiliary_detail gift).
    { rewrite H3, H2, H1. symmetry. apply app_assoc. }
    unfold volatility_detail.
    destruct vix as [v |]; [destruct (pct v) as [p |] |].
    + destruct (Py.gtb p 3);
        [simpl; rewrite Ha3; repeat rewrite <- app_assoc; reflexivity |].
      destruct (Py.ltb p (-2)); simpl; rewrite Ha3;
        repeat rewrite <- app_assoc; try reflexivity.
      repeat rewrite app_nil_r. reflexivity.
    + rewrite Ha3. repeat rewrite app_nil_r. reflexivity.
    + rewrite Ha3. repeat rewrite app_nil_r. reflexivity.
  - intros gift'. unfold score_market.
    set (a2 := fold_left (score_step (1 # 2)) asia_data
                 (fold_left (score_step 1) us_data (0, []))).
    destruct (score_tail_spec a2 gift vix) as [H3 _].
    destruct (score_tail_spec a2 gift' vix) as [H3' _].
    cbv zeta in H3, H3'.
    destruct vix as [v |]; [destruct (pct v) as [p |] |].
    + destruct (Py.gtb p 3); [simpl; congruence |].
      destruct (Py.ltb p (-2)); simpl; congruence.
    + congruence.
    + congruence.
  - split; [| split; [| split; [| split; [| split]]]].
    + intros w name i p Hp. split; intros Hs.
      * apply PyFacts.gtb_true in Hs.
        unfold quote_contribution, quote_detail; simpl.
        rewrite Hp, Hs. split; reflexivity.
      * apply PyFacts.gtb_false in Hs.
        unfold quote_contribution, quote_detail; simpl.
        rewrite Hp, Hs. split; reflexivity.
    + intros w name i Hp. unfold quote_contribution, quote_detail; simpl.
      rewrite Hp. split; reflexivity.
    + intros w name. split; reflexivity.
    + intros v p Hp. unfold volatility_contribution. rewrite Hp.
      split; [| split].
      * intros Hs. apply PyFacts.gtb_true in Hs. rewrite Hs. reflexivity.
      * intros Hs Hl. apply PyFacts.gtb_false in Hs.
        apply PyFacts.ltb_true in Hl. rewrite Hs, Hl. reflexivity.
      * intros Hs Hl. apply PyFacts.gtb_false in Hs.
        apply PyFacts.ltb_false in Hl. rewrite Hs, Hl. reflexivity.
    + intros v Hp. unfold volatility_contribution. rewrite Hp. reflexivity.
    + reflexivity.
Qed.

(** C3.  The label is BULLISH exactly when the score is above 1,
    BEARISH exactly when it is below -1, NEUTRAL otherwise; the scores 1
    and -1 themselves are NEUTRAL. *)
Theorem bias_of_spec (score : Q) :
  (bias_of score = BULLISH <-> 1 < score)
  /\ (bias_of score = BEARISH <-> score < -1)
  /\ (bias_of score = NEUTRAL <-> -1 <= score /\ score <= 1)
  /\ bias_of 1 = NEUTRAL
  /\ bias_of (-1) = NEUTRAL.
Proof.
  unfold bias_of.
  destruct (Py.gtb score 1) eqn:E1; [| destruct (Py.ltb score (-1)) eqn:E2].
  - apply PyFacts.gtb_true in E1.
    repeat split; intros; try reflexivity; try discriminate;
      try assumption; try lra.
  - apply PyFacts.gtb_false in E1. apply PyFacts.ltb_true in E2.
    repeat split; intros; try reflexivity; try discriminate;
      try assumption; try lra.
  - apply PyFacts.gtb_false in E1. apply PyFacts.ltb_false in E2.
    repeat split; intros; try reflexivity; try discriminate;
      try assumption; try lra.
Qed.

End BiasProps.

(** ** trend.py: reference quotes and gap candidates *)

Module GapProps.

Import Trend.
Local Open Scope string_scope.
Local Open Scope list_scope.

(** The formula of [pct_change], where it is defined. *)
Lemma pct_change_formula (curr prev : Q) :
  ~ prev == 0 -> pct_change curr prev = Some ((curr - prev) / prev * 100).
Proof.
  intros H. unfold pct_change.
  apply PyFacts.is_zero_false in H. rewrite H. reflexivity.
Qed.

Lemma pct_change_zero (curr prev : Q) :
  prev == 0 -> pct_change curr prev = None.
Proof.
  intros H. unfold pct_change.
  apply PyFacts.is_zero_true in H. rewrite H. reflexivity.
Qed.

Section Providers.

Variable float_of_str : string -> option Q.
Variable history : string -> option (list Q).

(** A candidate built from a snapshot row: the gap is the formula for a
    positive prior close and 0 otherwise, and the quantity is a number. *)
Lemma row_step_candidate (r : json) (c : GapCandidate) :
  row_step float_of_str r = Append c ->
  gap_pct c
  = (if Py.gtb (prev_close c) 0
     then Some ((preopen c - prev_close c) / prev_close c * 100)
     else Some 0)
  /\ (exists g, gap_pct c = Some g)
  /\ (exists q, qty c = Some q).
Proof.
  unfold row_step. intros H.
  destruct r as [| | | | | | d]; try discriminate.
  destruct (to_float _ _) as [prev |] in H; [| discriminate].
  destruct (to_float _ _) as [op |] in H; [| discriminate].
  destruct (to_float _ _) as [q |] in H; [| discriminate].
  destruct (negb _) in H; [discriminate |].
  injection H as <-. cbn [gap_pct prev_close preopen qty].
  destruct (Py.gtb prev 0) eqn:E.
  - apply PyFacts.gtb_true in E.
    rewrite pct_change_formula by (intros Hz; rewrite Hz in E; discriminate E).
    repeat split; eauto.
  - repeat split; eauto.
Qed.

(** A candidate built from the fallback pool: the gap is whatever
    [pct_change] returns, with no guard, and there is no quantity. *)
Lemma pool_step_candidate (s : string) (c : GapCandidate) :
  pool_step history s = Some c ->
  gap_pct c = pct_change (preopen c) (prev_close c) /\ qty c = None.
Proof.
  unfold pool_step. intros H.
  destruct (history s) as [hist |]; [| discriminate].
  destruct (List.length hist <? 2)%nat; [discriminate |].
  destruct (Py.iloc_neg 2 hist); [| discriminate].
  destruct (Py.iloc_neg 1 hist); [| discriminate].
  injection H as <-. split; reflexivity.
Qed.

(** An exception in the loop does not depend on what was collected. *)
Lemma snapshot_loop_raises (rows : list json) (cs cs' : list GapCandidate)
    (e : Py.exn) :
  snapshot_loop float_of_str rows cs = Py.Raised e ->
  snapshot_loop float_of_str rows cs' = Py.Raised e.
Proof.
  revert cs cs'. induction rows as [| r rest IH]; intros cs cs'; simpl.
  - discriminate.
  - destruct (row_step float_of_str r); eauto.
Qed.

(** The loops, as the lists they build. *)
Lemma snapshot_loop_app (rows : list json)
    (candidates found : list GapCandidate) :
  snapshot_loop float_of_str rows [] = Py.Returned found ->
  snapshot_loop float_of_str rows candidates
  = Py.Returned (candidates ++ found).
Proof.
  revert candidates found.
  induction rows as [| r rest IH]; intros candidates found; simpl.
  - intros [= <-]. rewrite app_nil_r. reflexivity.
  - destruct (row_step float_of_str r) as [c | |].
    + intros H.
      destruct (snapshot_loop float_of_str rest []) as [found' |] eqn:E.
      * rewrite (IH [c] found' eq_refl) in H. injection H as <-.
        rewrite (IH (candidates ++ [c]) found' eq_refl).
        rewrite <- app_assoc. reflexivity.
      * rewrite (snapshot_loop_raises rest [] [c] e E) in H. discriminate.
    + apply IH.
    + discriminate.
Qed.

Lemma snapshot_loop_all (rows : list json) (found : list GapCandidate)
    (P : GapCandidate -> Prop) :
  (forall r c, row_step float_of_str r = Append c -> P c) ->
  snapshot_loop float_of_str rows [] = Py.Returned found ->
  Forall P found.
Proof.
  intros HP. revert found.
  induction rows as [| r rest IH]; intros found; simpl.
  - intros [= <-]. constructor.
  - destruct (row_step float_of_str r) as [c | |] eqn:E.
    + destruct (snapshot_loop float_of_str rest []) as [found' |] eqn:E'.
      * rewrite (snapshot_loop_app rest [c] found' E').
        intros [= <-]. constructor; eauto.
      * rewrite (snapshot_loop_raises rest [] [c] e E'). discriminate.
    + apply IH.
    + discriminate.
Qed.

Lemma pool_loop_app (pool : list string) (candidates : list GapCandidate) :
  pool_loop history pool candidates
  = candidates ++ pool_loop history pool [].
Proof.
  unfold pool_loop. revert candidates.
  induction pool as [| s rest IH]; intros candidates; simpl.
  - symmetry. apply app_nil_r.
  - rewrite IH. rewrite (IH (match pool_step history s with
                              | Some c => [c]
                              | None => []
                              end)).
    destruct (pool_step history s); [| reflexivity].
    rewrite <- app_assoc. reflexivity.
Qed.

Lemma pool_loop_all (pool : list string) (P : GapCandidate -> Prop) :
  (forall s c, pool_step history s = Some c -> P c) ->
  Forall P (pool_loop history pool []).
Proof.
  intros HP. induction pool as [| s rest IH].
  - constructor.
  - unfold pool_loop in *. simpl.
    destruct (pool_step history s) as [c |] eqn:E; [| exact IH].
    change (Forall P (pool_loop history rest ([] ++ [c]))).
    rewrite pool_loop_app. apply Forall_app. split; [| exact IH].
    constructor; [eauto | constructor].
Qed.

(** A row that is a mapping never raises: it gives a candidate or is
    skipped. *)
Lemma row_step_mapping (d : list (string * json)) (e : Py.exn) :
  row_step float_of_str (JDict d) <> Escapes e.
Proof.
  unfold row_step.
  repeat match goal with
         | |- context [match ?x with _ => _ end] => destruct x
         end; discriminate.
Qed.

(** The snapshot loop over mappings none of which gives a candidate. *)
Lemma snapshot_loop_unusable (rows : list json) (cs : list GapCandidate) :
  Forall (fun r => (exists d, r = JDict d)
                   /\ forall c, row_step float_of_str r <> Append c) rows ->
  snapshot_loop float_of_str rows cs = Py.Returned cs.
Proof.
  induction 1 as [| r rest [[d ->] Hr] _ IH]; [reflexivity |].
  cbn [snapshot_loop].
  destruct (row_step float_of_str (JDict d)) as [c | | e] eqn:E.
  - exfalso. apply (Hr c). first [exact E | reflexivity].
  - exact IH.
  - exfalso. apply (row_step_mapping d e). exact E.
Qed.

(** X24.  The empty watchlist: when every row of the snapshot is a
    mapping and none of them gives a candidate (an absent or empty
    snapshot included), and the fallback pool gives no candidate either,
    the ranker returns the empty list. *)
Theorem empty_candidates_empty_watchlist
    (preopen_data : json) (pool : list string) (top_n : Z) :
  Forall (fun r => (exists d, r = JDict d)
                   /\ forall c, row_step float_of_str r <> Append c)
    (select_rows preopen_data) ->
  pool_loop history pool [] = [] ->
  analyze_preopen_and_pick_stocks float_of_str history preopen_data pool top_n
  = Py.Returned [].
Proof.
  intros Hrows Hpool.
  assert (Hsnap : snapshot_candidates float_of_str preopen_data
                  = Py.Returned []).
  { unfold snapshot_candidates. destruct (truthy preopen_data);
      [apply snapshot_loop_unusable, Hrows | reflexivity]. }
  unfold analyze_preopen_and_pick_stocks, collect_candidates.
  rewrite Hsnap. simpl. rewrite Hpool. reflexivity.
Qed.




(** C10, as the code has it.  For a reference symbol whose history holds
    exactly one session with a non-zero close, [last_close] is that close,
    pct_change is 0 and available, and the quote weighs -1 in the primary
    loop and -0.5 in the secondary one. *)
Theorem single_session_quote (sym : string) (c : Q) :
  ~ c == 0 ->
  exists q p,
    fetch_quote sym [c] = Some q
    /\ last_close q = c
    /\ latest q = c
    /\ pct q = Some p
    /\ p == 0
    /\ (forall name score details,
          score_step 1 (score, details) (name, Some q)
          = (score - 1, details ++ [Down name p])
          /\ score_step (1 # 2) (score, details) (name, Some q)
             = (score - (1 # 2), details ++ [Down name p])).
Proof.
  intros Hc.
  exists (mkQuote sym c c (Some ((c - c) / c * 100))), ((c - c) / c * 100).
  assert (Hp : (c - c) / c * 100 == 0) by (unfold Qdiv; ring).
  split.
  { unfold fetch_quote. simpl. rewrite pct_change_formula by exact Hc.
    reflexivity. }
  repeat split; try reflexivity; try exact Hp.
  - simpl. replace (Py.gtb ((c - c) / c * 100) 0) with false; [reflexivity |].
    symmetry. apply PyFacts.gtb_false. rewrite Hp. apply Qle_refl.
  - simpl. replace (Py.gtb ((c - c) / c * 100) 0) with false; [reflexivity |].
    symmetry. apply PyFacts.gtb_false. rewrite Hp. apply Qle_refl.
Qed.

End Providers.

Lemma empty_candidates_empty_watchlist_witness :
  analyze_preopen_and_pick_stocks (fun _ => None)
    (fun s => if String.eqb s "TCS.NS" then Some [3500] else None)
    (JDict [("data", JList [JDict [("prev_close", JNum 100);
                                   ("open", JNum 104)]])])
    ["TCS.NS"; "INFY.NS"] 6
  = Py.Returned [].
Proof.
  apply empty_candidates_empty_watchlist; [| reflexivity].
  repeat constructor; [eexists; reflexivity | discriminate].
Defined.


Lemma single_session_quote_witness :
  exists q p,
    fetch_quote "^N225" [38000] = Some q
    /\ last_close q = 38000
    /\ latest q = 38000
    /\ pct q = Some p
    /\ p == 0
    /\ (forall name score details,
          score_step 1 (score, details) (name, Some q)
          = (score - 1, details ++ [Down name p])
          /\ score_step (1 # 2) (score, details) (name, Some q)
             = (score - (1 # 2), details ++ [Down name p])).
Proof.
  apply (single_session_quote "^N225" 38000). discriminate.
Defined.

(** C10, as it is worded, fails for a single session whose close is 0:
    [pct_change] divides by that close, the division fails, the quote's
    pct is unavailable and the quote is skipped. *)
Lemma single_session_zero_close_skipped :
  exists q,
    fetch_quote "^GSPC" [0] = Some q
    /\ last_close q = 0
    /\ latest q = 0
    /\ pct q = None
    /\ score_market [("S&P500", Some q)] [("Nikkei", Some q)] None None
       = (0, []).
Proof.
  eexists. repeat split.
Qed.

(** C8: a snapshot without a usable row, beside a pool that gives no
    candidate.  Where the rows are not mappings the read of a row's
    symbol, which is outside the row's handler, raises AttributeError:
    the function raises where it should return the empty list, as it
    does for an absent snapshot. *)
Theorem unusable_snapshot_raises :
  let history := fun _ : string => Some [3500] in
  pool_loop history ["TCS.NS"] [] = []
  /\ analyze_preopen_and_pick_stocks (fun _ => None) history
       (JList [JStr "header"]) ["TCS.NS"] 6
     = Py.Raised Py.AttributeError
  /\ analyze_preopen_and_pick_stocks (fun _ => None) history
       (JDict [("data", JList [JNull])]) ["TCS.NS"] 6
     = Py.Raised Py.AttributeError
  /\ analyze_preopen_and_pick_stocks (fun _ => None) history
       JNull ["TCS.NS"] 6
     = Py.Returned [].
Proof. repeat split. Qed.

(** C6: the fallback path at a prior close of 0.  The snapshot path
    guards the division ([if prev>0 else 0]) and gives a gap of 0; the
    fallback path calls [pct_change] unguarded and the candidate's gap is
    [None], not 0. *)
Theorem fallback_zero_prior_close_gap :
  let history := fun _ : string => Some [0; 5] in
  let row := JDict [("symbol", JStr "X"); ("prev_close", JNum 0);
                    ("open", JNum 5)] in
  pool_step history "X.NS" = Some (mkCandidate (JStr "X") 0 5 None None)
  /\ row_step (fun _ => None) row
     = Append (mkCandidate (JStr "X") 0 5 (Some 0) (Some 0)).
Proof. split; reflexivity. Qed.

(** Downstream of it: a frame whose only gaps are [None] makes the
    ranker raise. *)
Example fallback_zero_prior_close_rank :
  analyze_preopen_and_pick_stocks (fun _ => None) (fun _ => Some [0; 5])
    JNull ["X.NS"] 6
  = Py.Raised Py.TypeError.
Proof. reflexivity. Qed.

End GapProps.

(** ** trend.py: the ranking of gap candidates *)

Module RankProps.

Import Trend.
Local Open Scope string_scope.
Local Open Scope list_scope.








Lemma existsb_is_some_false (col : list (option Q)) :
  existsb is_some col = false <-> Forall (fun o => o = None) col.
Proof.
  induction col as [| [x |] col IH]; simpl.
  - split; [constructor | reflexivity].
  - split; [discriminate | intros H; inversion H; discriminate].
  - rewrite IH. split; [constructor; auto | intros H; inversion H; auto].
Qed.


Section Providers.

Variable float_of_str : string -> option Q.
Variable history : string -> option (list Q).


End Providers.

Import RankSpec.



Section Ranker.

Variable float_of_str : string -> option Q.
Variable history : string -> option (list Q).


End Ranker.



End RankProps.

(** ** The normalisation in binary64

    The rationals above stand for Python floats.  For the numbers of the
    specification's example the same operations are run here on IEEE 754
    binary64 values: the results agree with the rational model. *)

Module Binary64.

Import Floats.PrimFloat.
Local Open Scope float_scope.
Set Warnings "-inexact-float".

(** [(qty - min) / (max - min + 1e-9)] for the quantities 100 and 50:
    below 1 for the maximum, 0 for the minimum. *)
Example max_quantity_row_below_one_binary64 :
  ((100 - 50) / (100 - 50 + 1e-9) <? 1) = true
  /\ ((50 - 50) / (100 - 50 + 1e-9) =? 0) = true.
Proof. split; vm_compute; reflexivity. Qed.

(** Once the range of quantities is large enough, adding 1e-9 to it is
    lost to rounding and the maximum row is exactly 1: the bound on the
    normalized quantity is "at most 1", not "below 1". *)
Example max_quantity_row_one_binary64 :
  (20000000 - 1000 + 1e-9 =? 20000000 - 1000) = true
  /\ ((20000000 - 1000) / (20000000 - 1000 + 1e-9) =? 1) = true
  /\ ((20000000 - 1000) / (20000000 - 1000 + 1e-9) <=? 1) = true.
Proof. repeat split; vm_compute; reflexivity. Qed.

(** The -8% candidate still ranks above the +5% one. *)
Example example_order_binary64 :
  (abs 5 * 0.7 + (100 - 50) / (100 - 50 + 1e-9) * 0.3
   <? abs (-8) * 0.7 + (50 - 50) / (100 - 50 + 1e-9) * 0.3) = true.
Proof. vm_compute. reflexivity. Qed.

End Binary64.

(** ** scanner.py: further properties of the scan *)

Module ScannerExtra.

Import Scanner.

Lemma iloc_last {A : Type} (l : list A) (x : A) :
  Py.iloc_neg 1 l = Some x -> exists init, l = init ++ [x].
Proof.
  unfold Py.iloc_neg. simpl. intros H.
  destruct (rev l) as [| y t] eqn:E; [discriminate |].
  injection H as ->. exists (rev t).
  rewrite <- (rev_involutive l), E. reflexivity.
Qed.

(** A row is kept exactly when none of its cells is missing. *)
Lemma valid_bar_some (b : RawBar) (v : Bar) :
  valid_bar b = Some v ->
  ~ In None (cells b)
  /\ raw_Open b = Some (Open v) /\ raw_High b = Some (High v)
  /\ raw_Low b = Some (Low v) /\ raw_Close b = Some (Close v)
  /\ raw_Volume b = Some (Volume v).
Proof.
  unfold valid_bar, cells.
  destruct (raw_Open b) as [o |]; [| discriminate].
  destruct (raw_High b) as [h |]; [| discriminate].
  destruct (raw_Low b) as [l |]; [| discriminate].
  destruct (raw_Close b) as [c |]; [| discriminate].
  destruct (raw_Volume b) as [vol |]; [| discriminate].
  destruct (forallb notnull (raw_other b)) eqn:E; [| discriminate].
  intros H. injection H as <-. cbn [Open High Low Close Volume].
  split; [| repeat split].
  intros [H | [H | [H | [H | [H | H]]]]]; try discriminate H.
  rewrite forallb_forall in E. specialize (E None H). discriminate E.
Qed.

Lemma valid_bar_none (b : RawBar) :
  valid_bar b = None -> In None (cells b).
Proof.
  unfold valid_bar, cells.
  destruct (raw_Open b); [| intros _; simpl; tauto].
  destruct (raw_High b); [| intros _; simpl; tauto].
  destruct (raw_Low b); [| intros _; simpl; tauto].
  destruct (raw_Close b); [| intros _; simpl; tauto].
  destruct (raw_Volume b); [| intros _; simpl; tauto].
  destruct (forallb notnull (raw_other b)) eqn:E; [discriminate |].
  intros _. do 5 right.
  induction (raw_other b) as [| [x |] rest IH]; simpl in *.
  - discriminate E.
  - right. apply IH. exact E.
  - left. reflexivity.
Qed.

Lemma dropna_nil (data : list RawBar) :
  dropna data = [] -> Forall (fun b => In None (cells b)) data.
Proof.
  induction data as [| b rest IH]; simpl; [constructor |].
  destruct (valid_bar b) eqn:E; [discriminate |].
  intros H. constructor; [apply valid_bar_none, E | apply IH, H].
Qed.

(** [dropna] keeps as many rows as have no missing cell. *)
Lemma dropna_length (data : list RawBar) :
  length (dropna data)
  = length (filter (fun b => forallb notnull (cells b)) data).
Proof.
  induction data as [| b rest IH]; simpl; [reflexivity |].
  unfold valid_bar at 1.
  destruct (raw_Open b); simpl; [| exact IH].
  destruct (raw_High b); simpl; [| exact IH].
  destruct (raw_Low b); simpl; [| exact IH].
  destruct (raw_Close b); simpl; [| exact IH].
  destruct (raw_Volume b); simpl; [| exact IH].
  destruct (forallb notnull (raw_other b)); simpl; [| exact IH].
  rewrite IH. reflexivity.
Qed.

(** The last bar [dropna] keeps is the last row of the frame without a
    missing cell. *)
Lemma dropna_last (data : list RawBar) (init : list Bar) (latest : Bar) :
  dropna data = init ++ [latest] ->
  exists pre raw post,
    data = pre ++ raw :: post
    /\ dropna pre = init
    /\ valid_bar raw = Some latest
    /\ Forall (fun b => In None (cells b)) post.
Proof.
  revert init. induction data as [| b rest IH]; intros init; simpl.
  - destruct init; discriminate.
  - destruct (valid_bar b) as [v |] eqn:E.
    + destruct init as [| v' init']; simpl; intros H.
      * injection H as -> Hrest.
        exists [], b, rest. repeat split; [exact E | apply dropna_nil, Hrest].
      * injection H as -> Hrest.
        destruct (IH init' Hrest) as (pre & raw & post & -> & Hpre & Hv & Hp).
        exists (b :: pre), raw, post. simpl. rewrite E, Hpre.
        repeat split; assumption.
    + intros H.
      destruct (IH init H) as (pre & raw & post & -> & Hpre & Hv & Hp).
      exists (b :: pre), raw, post. simpl. rewrite E.
      repeat split; assumption.
Qed.

Section Scan.

Variable price_history : string -> option (list RawBar).
Variable technical : list Bar -> option Indicators.

(** What a successful call went through. *)
Lemma get_latest_inv (tk : string) (r : SignalResult) :
  get_latest_indicators price_history technical tk = Some r ->
  exists data ind latest prev,
    price_history tk = Some data
    /\ (50 <= length (dropna data))%nat
    /\ technical (dropna data) = Some ind
    /\ Py.iloc_neg 1 (dropna data) = Some latest
    /\ Py.iloc_neg 2 (dropna data) = Some prev
    /\ r = mkSignalResult tk (Close latest) (Open latest) (High latest)
             (Low latest)
             (if Py.is_zero (Close prev) then None
              else Some ((Close latest - Close prev) / Close prev * 100))
             (if Py.gtb (mean (map Volume (Py.tail_n 20 (dropna data)))) 0
              then Volume latest
                   / mean (map Volume (Py.tail_n 20 (dropna data)))
              else 0)
             (RSI ind) (EMA_20 ind) (EMA_50 ind) (ADX ind)
             (c_is_uptrend (classify ind)) (c_ema_bullish (classify ind))
             (c_strong_trend (classify ind)) (c_signal (classify ind))
             (c_signal_score (classify ind)).
Proof.
  unfold get_latest_indicators. intros H.
  destruct (price_history tk) as [data |] eqn:Hd; [| discriminate].
  destruct (length data =? 0)%nat; [discriminate |].
  destruct (length (dropna data) <? 50)%nat eqn:E50; [discriminate |].
  destruct (technical (dropna data)) as [ind |] eqn:Ht; [| discriminate].
  destruct (Py.iloc_neg 1 (dropna data)) as [latest |] eqn:H1;
    [| discriminate].
  destruct (Py.iloc_neg 2 (dropna data)) as [prev |] eqn:H2;
    [| discriminate].
  injection H as <-. exists data, ind, latest, prev.
  apply Nat.ltb_ge in E50. repeat split; assumption.
Qed.

(** X1.  A result is only ever produced from a frame with at least 50
    rows that have no missing cell in any column (the price columns and
    whatever further columns the provider adds); it carries the ticker it
    was asked for, and its price fields are the cells of the last such
    row of the frame: every row after that one has a missing cell and is
    passed over. *)
Theorem result_from_last_valid_bar (tk : string) (r : SignalResult) :
  get_latest_indicators price_history technical tk = Some r ->
  ticker r = tk
  /\ exists data pre raw post,
       price_history tk = Some data
       /\ data = pre ++ raw :: post
       /\ (49 <= length (dropna pre))%nat
       /\ length (dropna pre)
          = length (filter (fun b => forallb notnull (cells b)) pre)
       /\ ~ In None (cells raw)
       /\ Forall (fun b => In None (cells b)) post
       /\ raw_Close raw = Some (current_price r)
       /\ raw_Open raw = Some (open_price r)
       /\ raw_High raw = Some (high r)
       /\ raw_Low raw = Some (low r).
Proof.
  intros H.
  destruct (get_latest_inv tk r H)
    as (data & ind & latest & prev & Hd & H50 & _ & Hl & _ & ->).
  split; [reflexivity |].
  destruct (iloc_last _ _ Hl) as [init Hinit].
  destruct (dropna_last _ _ _ Hinit)
    as (pre & raw & post & Hdata & Hpre & Hraw & Hpost).
  destruct (valid_bar_some _ _ Hraw) as (Hc & Ho & Hh & Hlo & Hcl & _).
  exists data, pre, raw, post.
  cbn [current_price open_price high low].
  split; [exact Hd |]. split; [exact Hdata |].
  split; [| split; [apply dropna_length | repeat split; assumption]].
  rewrite Hpre. rewrite Hinit, length_app in H50. simpl in H50. lia.
Qed.

(** X2.  In every result the signal follows from the result's own
    indicator fields: BUY exactly when RSI > 50 and (EMA_20 > EMA_50 or
    ADX > 25); WATCH exactly when RSI > 50 fails while EMA_20 > EMA_50
    and ADX > 25 hold, in which case the score is 2; SKIP in every other
    case. *)
Theorem result_signal_table (tk : string) (r : SignalResult) :
  get_latest_indicators price_history technical tk = Some r ->
  (signal r = BUY <->
   50 < rsi r /\ (ema_50 r < ema_20 r \/ 25 < adx r))
  /\ (signal r = WATCH <->
      ~ 50 < rsi r /\ ema_50 r < ema_20 r /\ 25 < adx r)
  /\ (signal r = SKIP <->
      ~ (ema_50 r < ema_20 r /\ 25 < adx r)
      /\ (~ 50 < rsi r \/ (~ ema_50 r < ema_20 r /\ ~ 25 < adx r)))
  /\ (signal r = WATCH -> signal_score r = 2%Z)
  /\ (signal r = BUY -> (2 <= signal_score r <= 3)%Z).
Proof.
  intros H.
  destruct (get_latest_inv tk r H)
    as (data & ind & latest & prev & _ & _ & _ & _ & _ & ->).
  cbn [signal rsi ema_20 ema_50 adx signal_score].
  unfold classify. cbn [c_signal c_signal_score].
  destruct (Py.gtb (RSI ind) 50) eqn:E1,
           (Py.gtb (EMA_20 ind) (EMA_50 ind)) eqn:E2,
           (Py.gtb (ADX ind) 25) eqn:E3; cbn;
    try apply PyFacts.gtb_true in E1; try apply PyFacts.gtb_false in E1;
    try apply PyFacts.gtb_true in E2; try apply PyFacts.gtb_false in E2;
    try apply PyFacts.gtb_true in E3; try apply PyFacts.gtb_false in E3;
    repeat split; intros; try discriminate; try reflexivity; try lia;
    try tauto; try lra;
    repeat match goal with
           | H : _ /\ _ |- _ => destruct H
           | H : _ \/ _ |- _ => destruct H
           end; try lra; try tauto;
    try (left; lra); try (right; split; lra).
Qed.

Lemma iloc_in {A : Type} (k : nat) (l : list A) (x : A) :
  Py.iloc_neg k l = Some x -> In x l.
Proof.
  unfold Py.iloc_neg. intros H. apply nth_error_In in H.
  apply in_rev. exact H.
Qed.

(** X3.  The volume ratio never divides by a mean that is not positive
    (it is 0 then), and for a series whose volumes are not negative the
    ratio is not negative. *)
Theorem volume_ratio_not_negative (tk : string) (r : SignalResult)
    (data : list RawBar) :
  get_latest_indicators price_history technical tk = Some r ->
  price_history tk = Some data ->
  Forall (fun b => 0 <= Volume b) (dropna data) ->
  0 <= volume_ratio r
  /\ (mean (map Volume (Py.tail_n 20 (dropna data))) <= 0 ->
      volume_ratio r = 0).
Proof.
  intros H Hdata Hvol.
  destruct (get_latest_inv tk r H)
    as (data' & ind & latest & prev & Hd & _ & _ & Hl & _ & ->).
  rewrite Hdata in Hd. injection Hd as <-.
  cbn [volume_ratio].
  destruct (Py.gtb (mean (map Volume (Py.tail_n 20 (dropna data)))) 0) eqn:E.
  - apply PyFacts.gtb_true in E. split; [| intros; lra].
    apply iloc_in in Hl. rewrite Forall_forall in Hvol.
    apply Qle_shift_div_l; [exact E |]. rewrite Qmult_0_l. auto.
  - split; [apply Qle_refl | reflexivity].
Qed.

(** X4.  Scanning is done instrument by instrument: the scan of two
    lists one after the other is the two scans one after the other, and a
    scan never returns more results than it was given instruments. *)
Theorem scan_stocks_app (l1 l2 : list string) :
  scan_stocks price_history technical (l1 ++ l2)
  = scan_stocks price_history technical l1
    ++ scan_stocks price_history technical l2
  /\ (length (scan_stocks price_history technical l1) <= length l1)%nat.
Proof.
  repeat rewrite ScannerProps.scan_successes. split.
  - induction l1 as [| tk rest IH]; simpl; [reflexivity |].
    destruct (get_latest_indicators price_history technical tk);
      simpl; rewrite IH; reflexivity.
  - induction l1 as [| tk rest IH]; simpl; [lia |].
    destruct (get_latest_indicators price_history technical tk);
      simpl; lia.
Qed.

Lemma classify_buy (ind : Indicators) :
  c_signal (classify ind) = BUY ->
  50 < RSI ind /\ (2 <= c_signal_score (classify ind) <= 3)%Z.
Proof.
  unfold classify. cbn [c_signal c_signal_score].
  destruct (Py.gtb (RSI ind) 50) eqn:E1,
           (Py.gtb (EMA_20 ind) (EMA_50 ind)), (Py.gtb (ADX ind) 25);
    cbn; intros H; try discriminate H; apply PyFacts.gtb_true in E1;
    split; try assumption; lia.
Qed.

Lemma classify_watch (ind : Indicators) :
  c_signal (classify ind) = WATCH ->
  ~ 50 < RSI ind /\ c_signal_score (classify ind) = 2%Z.
Proof.
  unfold classify. cbn [c_signal c_signal_score].
  destruct (Py.gtb (RSI ind) 50) eqn:E1,
           (Py.gtb (EMA_20 ind) (EMA_50 ind)), (Py.gtb (ADX ind) 25);
    cbn; intros H; try discriminate H; apply PyFacts.gtb_false in E1;
    split; try reflexivity; apply Qle_not_lt; assumption.
Qed.

(** X5.  The rows of the BUY table all have RSI above 50 and a score of
    2 or 3; the rows of the WATCH table all have an RSI that is not above
    50 and a score of exactly 2. *)
Theorem table_rows_signals (stock_list : list string) :
  let report :=
    display_scan_results (scan_stocks price_history technical stock_list) in
  Forall (fun r => signal r = BUY /\ 50 < rsi r
                   /\ (2 <= signal_score r <= 3)%Z) (buy_table report)
  /\ Forall (fun r => signal r = WATCH /\ ~ 50 < rsi r
                      /\ signal_score r = 2%Z) (watch_table report).
Proof.
  cbv zeta.
  destruct (ScannerProps.display_table rsi
    (filter (fun r => Signal_eqb (signal r) BUY)
       (scan_stocks price_history technical stock_list))) as [Hb _].
  destruct (ScannerProps.display_table (fun r => inject_Z (signal_score r))
    (filter (fun r => Signal_eqb (signal r) WATCH)
       (scan_stocks price_history technical stock_list))) as [Hw _].
  cbv zeta in Hb, Hw.
  unfold display_scan_results. cbn [buy_table watch_table].
  assert (Hres : forall r,
            In r (scan_stocks price_history technical stock_list) ->
            exists ind,
              signal r = c_signal (classify ind)
              /\ signal_score r = c_signal_score (classify ind)
              /\ is_uptrend r = c_is_uptrend (classify ind)
              /\ rsi r = RSI ind).
  { intros r Hin. rewrite ScannerProps.scan_successes in Hin.
    apply ScannerProps.successes_results in Hin.
    destruct Hin as (tk & _ & Hget).
    exact (ScannerProps.get_latest_classified _ _ tk r Hget). }
  split.
  - eapply Permutation_Forall; [apply Permutation_sym, Hb |].
    apply Forall_forall. intros r Hr. apply filter_In in Hr.
    destruct Hr as [Hin Hs].
    destruct (Hres r Hin) as (ind & H1 & H2 & _ & H4).
    assert (Hbuy : signal r = BUY)
      by (destruct (signal r); try discriminate Hs; reflexivity).
    split; [exact Hbuy |]. rewrite H1 in Hbuy.
    rewrite H2, H4. apply classify_buy, Hbuy.
  - eapply Permutation_Forall; [apply Permutation_sym, Hw |].
    apply Forall_forall. intros r Hr. apply filter_In in Hr.
    destruct Hr as [Hin Hs].
    destruct (Hres r Hin) as (ind & H1 & H2 & _ & H4).
    assert (Hwatch : signal r = WATCH)
      by (destruct (signal r); try discriminate Hs; reflexivity).
    split; [exact Hwatch |]. rewrite H1 in Hwatch.
    rewrite H2, H4. apply classify_watch, Hwatch.
Qed.

End Scan.

Lemma result_from_last_valid_bar_witness :
  let bar := mkRawBar (Some 10) (Some 11) (Some 9) (Some 10) (Some 1000)
               [Some 0; Some 0] in
  let last := mkRawBar (Some 12) (Some 13) (Some 11) (Some 12) (Some 1500)
                [Some 0; Some 0] in
  let gap := mkRawBar (Some 14) (Some 15) (Some 13) (Some 14) (Some 1800)
               [None; Some 0] in
  let ph := fun _ : string => Some (repeat bar 49 ++ [last; gap]) in
  let tech := fun _ : list Bar => Some (mkIndicators 110 100 60 30) in
  exists r,
    get_latest_indicators ph tech "INFY.NS" = Some r
    /\ current_price r == 12
    /\ ticker r = "INFY.NS"%string
    /\ exists data pre raw post,
         ph "INFY.NS"%string = Some data
         /\ data = pre ++ raw :: post
         /\ (49 <= length (dropna pre))%nat
         /\ length (dropna pre)
            = length (filter (fun b => forallb notnull (cells b)) pre)
         /\ ~ In None (cells raw)
         /\ Forall (fun b => In None (cells b)) post
         /\ raw_Close raw = Some (current_price r)
         /\ raw_Open raw = Some (open_price r)
         /\ raw_High raw = Some (high r)
         /\ raw_Low raw = Some (low r).
Proof.
  intros bar last gap ph tech. eexists. split; [vm_compute; reflexivity |].
  split; [reflexivity |].
  apply (result_from_last_valid_bar ph tech "INFY.NS").
  vm_compute. reflexivity.
Defined.

Lemma result_signal_table_witness :
  let bar := mkRawBar (Some 10) (Some 11) (Some 9) (Some 10) (Some 1000)
               [Some 0; Some 0] in
  let ph := fun _ : string => Some (repeat bar 50) in
  let tech := fun _ : list Bar => Some (mkIndicators 110 100 40 30) in
  exists r,
    get_latest_indicators ph tech "SBIN.NS" = Some r
    /\ (signal r = BUY <->
        50 < rsi r /\ (ema_50 r < ema_20 r \/ 25 < adx r))
    /\ (signal r = WATCH <->
        ~ 50 < rsi r /\ ema_50 r < ema_20 r /\ 25 < adx r)
    /\ (signal r = SKIP <->
        ~ (ema_50 r < ema_20 r /\ 25 < adx r)
        /\ (~ 50 < rsi r \/ (~ ema_50 r < ema_20 r /\ ~ 25 < adx r)))
    /\ (signal r = WATCH -> signal_score r = 2%Z)
    /\ (signal r = BUY -> (2 <= signal_score r <= 3)%Z).
Proof.
  intros bar ph tech. eexists. split; [vm_compute; reflexivity |].
  apply (result_signal_table ph tech "SBIN.NS"). vm_compute. reflexivity.
Defined.

Lemma volume_ratio_not_negative_witness :
  let bar := mkRawBar (Some 10) (Some 11) (Some 9) (Some 10) (Some 0)
               [Some 0; Some 0] in
  let data := repeat bar 50 in
  let ph := fun _ : string => Some data in
  let tech := fun _ : list Bar => Some (mkIndicators 110 100 60 30) in
  exists r,
    get_latest_indicators ph tech "ITC.NS" = Some r
    /\ 0 <= volume_ratio r
    /\ (mean (map Volume (Py.tail_n 20 (dropna data))) <= 0 ->
        volume_ratio r = 0).
Proof.
  intros bar data ph tech. eexists. split; [vm_compute; reflexivity |].
  apply (volume_ratio_not_negative ph tech "ITC.NS").
  - vm_compute. reflexivity.
  - reflexivity.
  - vm_compute. repeat constructor; discriminate.
Defined.

End ScannerExtra.

(** ** trend.py: further properties of the quotes and the bias score *)

Module BiasExtra.

Import Trend BiasSpec.
Local Open Scope string_scope.
Local Open Scope list_scope.

(** X8.  For a positive previous value the sign of [pct_change] is the
    direction of the move; for a negative previous value it is the
    opposite direction. *)
Theorem pct_change_sign (curr prev : Q) :
  (0 < prev ->
   exists p, pct_change curr prev = Some p
             /\ (0 < p <-> prev < curr)
             /\ (p < 0 <-> curr < prev)
             /\ (p == 0 <-> curr == prev))
  /\ (prev < 0 ->
      exists p, pct_change curr prev = Some p
                /\ (0 < p <-> curr < prev)
                /\ (p < 0 <-> prev < curr)).
Proof.
  split; intros Hprev.
  - assert (Hnz : ~ prev == 0) by lra.
    rewrite (GapProps.pct_change_formula curr prev Hnz). eexists.
    split; [reflexivity |].
    assert (Hi : 0 < / prev) by (apply Qinv_lt_0_compat; exact Hprev).
    unfold Qdiv. set (i := / prev) in *.
    assert (Hone : prev * i == 1) by (apply Qmult_inv_r; exact Hnz).
    repeat split; intros H; nra.
  - assert (Hnz : ~ prev == 0) by lra.
    rewrite (GapProps.pct_change_formula curr prev Hnz). eexists.
    split; [reflexivity |].
    assert (Hi : 0 < / (- prev)) by (apply Qinv_lt_0_compat; lra).
    assert (Hone : prev * / prev == 1) by (apply Qmult_inv_r; exact Hnz).
    assert (Hneg : (- prev) * / (- prev) == 1) by (apply Qmult_inv_r; lra).
    unfold Qdiv. set (i := / prev) in *. set (j := / (- prev)) in *.
    assert (Hij : i == - j) by nra.
    repeat split; intros H; nra.
Qed.

(** X9.  A quote reads the last two closes of the history: the previous
    close is the one before last and the latest the last, whatever comes
    before; an empty history gives no quote and a single close stands for
    both. *)
Theorem fetch_quote_last_two (sym : string) (init : list Q) (a b : Q) :
  fetch_quote sym (init ++ [a; b]) = Some (mkQuote sym a b (pct_change b a))
  /\ fetch_quote sym [a] = Some (mkQuote sym a a (pct_change a a))
  /\ fetch_quote sym [] = None.
Proof.
  split; [| split; reflexivity].
  unfold fetch_quote, Py.iloc_neg.
  rewrite rev_app_distr, length_app. simpl rev. simpl List.length.
  replace (List.length init + 2)%nat with (S (S (List.length init))) by lia.
  reflexivity.
Qed.

Section Providers.

Variable history : string -> option (list Q).

(** The only exception [fetch_yf_symbols] lets out is the provider's. *)
Lemma fetch_yf_symbols_outcome (symbols : list (string * string)) :
  (exists out, fetch_yf_symbols history symbols = Py.Returned out)
  \/ fetch_yf_symbols history symbols = Py.Raised Py.ProviderError.
Proof.
  induction symbols as [| [name sym] rest IH]; simpl.
  - left. eexists. reflexivity.
  - destruct (history sym); [| right; reflexivity].
    destruct IH as [[out ->] | ->]; [left; eexists |right]; reflexivity.
Qed.

(** X10.  [fetch_yf_symbols] answers for every name, in the order of the
    symbol table, each with the quote of its own history; it has no
    handler, so it raises as soon as one history cannot be fetched. *)
Theorem fetch_yf_symbols_spec (symbols : list (string * string)) :
  match fetch_yf_symbols history symbols with
  | Py.Returned out =>
      map fst out = map fst symbols
      /\ Forall2 (fun o ns =>
                    exists hist, history (snd ns) = Some hist
                                 /\ snd o = fetch_quote (snd ns) hist)
           out symbols
  | Py.Raised e =>
      e = Py.ProviderError
      /\ exists name sym, In (name, sym) symbols /\ history sym = None
  end.
Proof.
  induction symbols as [| [name sym] rest IH]; simpl.
  - split; constructor.
  - destruct (history sym) as [hist |] eqn:E.
    + destruct (fetch_yf_symbols history rest) as [out | e]; simpl.
      * destruct IH as [IH1 IH2]. split; [f_equal; exact IH1 |].
        constructor; [| exact IH2]. exists hist. split; [exact E | reflexivity].
      * destruct IH as [-> (n & s0 & Hin & Hn)]. split; [reflexivity |].
        exists n, s0. split; [right; exact Hin | exact Hn].
    + split; [reflexivity |]. exists name, sym.
      split; [left; reflexivity | exact E].
Qed.

End Providers.

(** A loop moves the score by at most its weight for each quote. *)
Lemma score_loop_range (w : Q) (quotes : list (string * option ReferenceQuote))
    (acc : Acc) :
  0 <= w ->
  fst acc - w * inject_Z (Z.of_nat (List.length quotes))
  <= fst (fold_left (score_step w) quotes acc)
  /\ fst (fold_left (score_step w) quotes acc)
     <= fst acc + w * inject_Z (Z.of_nat (List.length quotes)).
Proof.
  intros Hw. revert acc.
  induction quotes as [| item rest IH]; intros acc.
  - cbn [fold_left List.length Z.of_nat]. change (inject_Z 0) with 0.
    split; lra.
  - cbn [fold_left List.length]. rewrite Nat2Z.inj_succ, <- Z.add_1_r.
    rewrite inject_Z_plus.
    destruct (IH (score_step w acc item)) as [IHl IHu].
    destruct (BiasProps.score_step_spec w acc item) as [Hs _].
    assert (Hc : - w <= quote_contribution w (snd item)
                 /\ quote_contribution w (snd item) <= w).
    { unfold quote_contribution. destruct (snd item) as [i |]; [| lra].
      destruct (pct i) as [p |]; [| lra].
      destruct (Py.gtb p 0); lra. }
    change (inject_Z 1) with 1. split; nra.
Qed.

Lemma score_loop_halves (w : Q) (k : Z)
    (quotes : list (string * option ReferenceQuote)) (acc : Acc) :
  w == inject_Z k / 2 ->
  (exists z, fst acc == inject_Z z / 2) ->
  exists z, fst (fold_left (score_step w) quotes acc) == inject_Z z / 2.
Proof.
  intros Hw. revert acc.
  induction quotes as [| item rest IH]; intros acc [z Hz].
  - exists z. exact Hz.
  - cbn [fold_left]. apply IH.
    destruct (BiasProps.score_step_spec w acc item) as [Hs _].
    unfold quote_contribution in Hs.
    destruct (snd item) as [i |];
      [destruct (pct i) as [p |]; [destruct (Py.gtb p 0) |] |].
    + exists (z + k)%Z. rewrite Hs, Hz, Hw, inject_Z_plus. field.
    + exists (z - k)%Z. rewrite Hs, Hz, Hw. unfold Z.sub.
      rewrite inject_Z_plus, inject_Z_opp. field.
    + exists z. rewrite Hs, Hz. ring.
    + exists z. rewrite Hs, Hz. ring.
Qed.

(** The last two blocks of [score_market] on the accumulator. *)
Lemma score_market_unfold
    (us_data asia_data : list (string * option ReferenceQuote))
    (gift : option Q) (vix : option ReferenceQuote) :
  fst (score_market us_data asia_data gift vix)
  == fst (fold_left (score_step (1 # 2)) asia_data
            (fold_left (score_step 1) us_data (0, [])))
     + volatility_contribution vix.
Proof.
  unfold score_market, volatility_contribution.
  set (a2 := fold_left (score_step (1 # 2)) asia_data
               (fold_left (score_step 1) us_data (0, []))).
  destruct (BiasProps.score_tail_spec a2 gift vix) as [H3 _].
  cbv zeta in H3. revert H3.
  generalize (match gift with
              | Some value =>
                  if Py.is_zero value then a2
                  else (fst a2, snd a2 ++ [GiftNifty value])
              | None => a2
              end).
  intros a3 H3.
  destruct vix as [v |]; [destruct (pct v) as [p |] |].
  - destruct (Py.gtb p 3); [simpl; rewrite H3; ring |].
    destruct (Py.ltb p (-2)); simpl; rewrite H3; ring.
  - rewrite H3; ring.
  - rewrite H3; ring.
Qed.

(** X11.  The bias score stays within what the quotes can add: with [n]
    primary and [m] secondary quotes it lies between -(n + m/2 + 1.5) and
    n + m/2 + 0.5, and it is always a whole number of halves. *)
Theorem score_market_range
    (us_data asia_data : list (string * option ReferenceQuote))
    (gift : option Q) (vix : option ReferenceQuote) :
  let n := inject_Z (Z.of_nat (List.length us_data)) in
  let m := inject_Z (Z.of_nat (List.length asia_data)) in
  let score := fst (score_market us_data asia_data gift vix) in
  - (n + (1 # 2) * m + (3 # 2)) <= score
  /\ score <= n + (1 # 2) * m + (1 # 2)
  /\ exists z, score == inject_Z z / 2.
Proof.
  cbv zeta.
  pose proof (score_market_unfold us_data asia_data gift vix) as Hu.
  remember (fold_left (score_step 1) us_data (0, [])) as a1 eqn:Ea1.
  destruct (score_loop_range 1 us_data (0, [])) as [H1l H1u]; [lra |].
  destruct (score_loop_range (1 # 2) asia_data a1) as [H2l H2u]; [lra |].
  rewrite <- Ea1 in H1l, H1u. simpl fst in H1l, H1u.
  assert (Hv : - (3 # 2) <= volatility_contribution vix
               /\ volatility_contribution vix <= 1 # 2
               /\ exists z, volatility_contribution vix == inject_Z z / 2).
  { unfold volatility_contribution.
    destruct vix as [v |]; [destruct (pct v) as [p |] |].
    - destruct (Py.gtb p 3); [| destruct (Py.ltb p (-2))].
      + repeat split; try lra. exists (-3)%Z. reflexivity.
      + repeat split; try lra. exists 1%Z. reflexivity.
      + repeat split; try lra. exists 0%Z. reflexivity.
    - repeat split; try lra. exists 0%Z. reflexivity.
    - repeat split; try lra. exists 0%Z. reflexivity. }
  destruct Hv as (Hvl & Hvu & zv & Hzv).
  split; [| split].
  - rewrite Hu. lra.
  - rewrite Hu. lra.
  - assert (Ha1 : exists z, fst a1 == inject_Z z / 2).
    { rewrite Ea1. apply (score_loop_halves 1 2); [reflexivity |].
      exists 0%Z. reflexivity. }
    assert (Hhalf : (1 # 2) == inject_Z 1 / 2) by reflexivity.
    destruct (score_loop_halves (1 # 2) 1 asia_data a1 Hhalf Ha1)
      as [z2 Hz2].
    exists (z2 + zv)%Z. rewrite Hu, Hz2, Hzv, inject_Z_plus. field.
Qed.

(** X12.  When no reference data is available (every quote absent or
    without a percentage, the volatility index included) the score is 0,
    the bias NEUTRAL, and the details hold at most the auxiliary note. *)
Theorem no_reference_data_neutral
    (us_data asia_data : list (string * option ReferenceQuote))
    (gift : option Q) (vix : option ReferenceQuote) :
  Forall (fun item => forall i, snd item = Some i -> pct i = None) us_data ->
  Forall (fun item => forall i, snd item = Some i -> pct i = None) asia_data ->
  (forall v, vix = Some v -> pct v = None) ->
  score_market us_data asia_data gift vix = (0, auxiliary_detail gift)
  /\ bias_of (fst (score_market us_data asia_data gift vix)) = NEUTRAL.
Proof.
  intros Hus Hasia Hvix.
  assert (Hloop : forall w quotes acc,
            Forall (fun item => forall i, snd item = Some i -> pct i = None)
              quotes ->
            fold_left (score_step w) quotes acc = acc).
  { intros w quotes. induction quotes as [| [name info] rest IH];
      intros acc Hq; [reflexivity |].
    inversion Hq as [| ? ? Hitem Hrest]; subst. cbn [fold_left].
    replace (score_step w acc (name, info)) with acc; [apply IH, Hrest |].
    destruct acc as [s d]. simpl. destruct info as [i |]; [| reflexivity].
    rewrite (Hitem i eq_refl). reflexivity. }
  assert (Hsm : score_market us_data asia_data gift vix
                = (0, auxiliary_detail gift)).
  { unfold score_market. cbv zeta.
    rewrite (Hloop 1 us_data _ Hus), (Hloop (1 # 2) asia_data _ Hasia).
    unfold auxiliary_detail.
    destruct gift as [value |]; [destruct (Py.is_zero value) |];
      (destruct vix as [v |]; [rewrite (Hvix v eq_refl) |]; reflexivity). }
  rewrite Hsm. split; reflexivity.
Qed.

Lemma no_reference_data_neutral_witness :
  let q := mkQuote "^GSPC" 0 0 None in
  score_market [("S&P500", Some q); ("Dow", None)] [("Nikkei", None)]
    (Some 25900) None
  = (0, auxiliary_detail (Some 25900))
  /\ bias_of (fst (score_market [("S&P500", Some q); ("Dow", None)]
                     [("Nikkei", None)] (Some 25900) None)) = NEUTRAL.
Proof.
  intros q. apply no_reference_data_neutral.
  - repeat constructor; simpl; intros i [= <-]; reflexivity.
  - repeat constructor; simpl; intros i H; discriminate H.
  - intros v H; discriminate H.
Defined.

End BiasExtra.

(** ** trend.py: further properties of the snapshot and the pool *)

Module GapExtra.

Import Trend.
Local Open Scope string_scope.
Local Open Scope list_scope.

Lemma get_contains (d : list (string * json)) (k : string) :
  is_list (get d k) = true -> contains d k = true.
Proof.
  unfold contains. induction d as [| [k' v] d IH]; simpl.
  - discriminate.
  - destruct (String.eqb k k'); [reflexivity | exact IH].
Qed.

(** X13.  The rows of a snapshot: a list under [data] wins over
    everything else in the mapping; failing that a list under [result];
    a bare list is its own rows; a snapshot that is neither a mapping nor
    a list has no rows. *)
Theorem select_rows_precedence :
  (forall d l, get d "data" = JList l -> select_rows (JDict d) = l)
  /\ (forall d l, is_list (get d "data") = false ->
                  get d "result" = JList l -> select_rows (JDict d) = l)
  /\ (forall l, select_rows (JList l) = l)
  /\ select_rows JNull = []
  /\ (forall b, select_rows (JBool b) = [])
  /\ (forall z, select_rows (JInt z) = [])
  /\ (forall q, select_rows (JNum q) = [])
  /\ (forall s, select_rows (JStr s) = []).
Proof.
  split; [| split]; [| | repeat split].
  - intros d l H. unfold select_rows.
    rewrite (get_contains d "data") by (rewrite H; reflexivity).
    rewrite H. reflexivity.
  - intros d l Hd H. unfold select_rows. rewrite Hd, andb_false_r.
    rewrite (get_contains d "result") by (rewrite H; reflexivity).
    rewrite H. reflexivity.
Qed.

(** [s.replace(".NS", "")] leaves a character that is not a dot. *)
Lemma strip_NS_other (c : ascii) (rest : string) :
  c <> "."%char -> strip_NS (String c rest) = String c (strip_NS rest).
Proof.
  intros Hc.
  destruct c as [[] [] [] [] [] [] [] []]; try reflexivity.
  contradiction Hc. reflexivity.
Qed.

(** X14.  For a name without a dot, the exchange suffix [.NS] is
    removed and the name is returned as it is. *)
Theorem strip_NS_suffix (s : string) :
  Forall (fun c => c <> "."%char) (list_ascii_of_string s) ->
  strip_NS (s ++ ".NS") = s /\ strip_NS s = s.
Proof.
  induction s as [| c rest IH]; intros H.
  - split; reflexivity.
  - simpl in H. inversion H as [| ? ? Hc Hrest]; subst.
    destruct (IH Hrest) as [IH1 IH2].
    change (String c rest ++ ".NS")%string
      with (String c (rest ++ ".NS")%string).
    rewrite !strip_NS_other by exact Hc. rewrite IH1, IH2.
    split; reflexivity.
Qed.

Lemma strip_NS_suffix_witness :
  strip_NS ("M&M" ++ ".NS") = "M&M" /\ strip_NS "M&M" = "M&M".
Proof.
  apply (strip_NS_suffix "M&M"). repeat constructor; discriminate.
Defined.

Section Providers.

Variable float_of_str : string -> option Q.
Variable history : string -> option (list Q).

Lemma snapshot_loop_non_mapping (rows : list json) (cs : list GapCandidate) :
  Exists (fun r => forall d, r <> JDict d) rows ->
  snapshot_loop float_of_str rows cs = Py.Raised Py.AttributeError.
Proof.
  revert cs. induction rows as [| r rest IH]; intros cs H.
  - inversion H.
  - simpl. destruct r as [| b | z | q | s | l | d]; try reflexivity.
    assert (Hrest : Exists (fun r => forall d, r <> JDict d) rest).
    { inversion H as [? ? Hd | ? ? Ht]; subst; [| exact Ht].
      contradiction (Hd d). reflexivity. }
    destruct (row_step float_of_str (JDict d)) eqn:E; auto.
    exfalso. unfold row_step in E.
    repeat match type of E with
           | context [match ?x with _ => _ end] => destruct x
           end; discriminate E.
Qed.

(** X15.  A snapshot row that is not a mapping is not skipped: the read
    of its symbol raises AttributeError outside the row's handler, and a
    list of rows holding one such row makes the whole function raise,
    whatever the pool. *)
Theorem non_mapping_row_aborts (rows : list json) (pool : list string)
    (top_n : Z) :
  Exists (fun r => forall d, r <> JDict d) rows ->
  analyze_preopen_and_pick_stocks float_of_str history (JList rows) pool top_n
  = Py.Raised Py.AttributeError.
Proof.
  intros H.
  unfold analyze_preopen_and_pick_stocks, collect_candidates,
    snapshot_candidates.
  destruct rows as [| r rest]; [inversion H |].
  cbn [truthy List.length Nat.eqb negb select_rows].
  rewrite (snapshot_loop_non_mapping _ [] H). reflexivity.
Qed.

(** X16.  On the snapshot path a candidate's gap is the percentage
    formula for a positive prior close and exactly 0 for any other; a row
    with no usable prior-close field has prior close 0 and gap 0; a row
    with no usable open field takes the prior close as its price, and its
    gap is 0. *)
Theorem snapshot_gap_guard (r : json) (c : GapCandidate) :
  row_step float_of_str r = Append c ->
  (0 < prev_close c ->
   gap_pct c = Some ((preopen c - prev_close c) / prev_close c * 100))
  /\ (prev_close c <= 0 -> gap_pct c = Some 0)
  /\ exists d,
       r = JDict d
       /\ (truthy (get d "prev_close") = false ->
           truthy (get d "prevClose") = false ->
           truthy (get d "previousClose") = false ->
           prev_close c = 0 /\ gap_pct c = Some 0)
       /\ (truthy (get d "open") = false ->
           truthy (get d "preopen_price") = false ->
           truthy (get d "preopen") = false ->
           preopen c = prev_close c
           /\ exists g, gap_pct c = Some g /\ g == 0).
Proof.
  intros H.
  destruct (GapProps.row_step_candidate float_of_str r c H) as [Hgap _].
  split; [| split].
  - intros Hp. apply PyFacts.gtb_true in Hp. rewrite Hgap, Hp. reflexivity.
  - intros Hp. apply PyFacts.gtb_false in Hp. rewrite Hgap, Hp. reflexivity.
  - unfold row_step in H. destruct r as [| | | | | | d]; try discriminate H.
    exists d. split; [reflexivity |]. split.
    + intros H1 H2 H3. unfold por in H. rewrite H1, H2, H3 in H.
      change (to_float float_of_str (JInt 0)) with (Some 0) in H at 1.
      cbv beta iota in H.
      destruct (to_float _ _) as [op |] in H; [| discriminate].
      destruct (to_float _ _) as [q |] in H; [| discriminate].
      destruct (negb _) in H; [discriminate |].
      injection H as <-. split; reflexivity.
    + intros H1 H2 H3. unfold por in H. rewrite H1, H2, H3 in H.
      destruct (to_float _ _) as [prev |] in H; [| discriminate].
      cbn [to_float] in H.
      destruct (to_float _ _) as [q |] in H; [| discriminate].
      destruct (negb _) in H; [discriminate |].
      injection H as <-. cbn [preopen prev_close gap_pct].
      split; [reflexivity |].
      destruct (Py.gtb prev 0) eqn:E.
      * apply PyFacts.gtb_true in E.
        rewrite GapProps.pct_change_formula by lra.
        eexists. split; [reflexivity |]. unfold Qdiv. ring.
      * exists 0. split; reflexivity.
Qed.

(** X17.  A pool instrument gives a candidate exactly from its last two
    closes: the prior close is the one before last, the price the last,
    the symbol the ticker without [.NS], with no quantity; an instrument
    with fewer than two sessions, or whose history cannot be fetched, is
    skipped. *)
Theorem pool_step_last_two (s : string) :
  (forall init a b,
     history s = Some (init ++ [a; b]) ->
     pool_step history s
     = Some (mkCandidate (JStr (strip_NS s)) a b (pct_change b a) None))
  /\ (forall a, history s = Some [a] -> pool_step history s = None)
  /\ (history s = Some [] -> pool_step history s = None)
  /\ (history s = None -> pool_step history s = None).
Proof.
  unfold pool_step. split; [| split; [| split]].
  - intros init a b H. rewrite H. unfold Py.iloc_neg.
    rewrite rev_app_distr, length_app. simpl rev. simpl List.length.
    replace (List.length init + 2 <? 2)%nat with false
      by (symmetry; apply Nat.ltb_ge; lia).
    reflexivity.
  - intros a H. rewrite H. reflexivity.
  - intros H. rewrite H. reflexivity.
  - intros H. rewrite H. reflexivity.
Qed.

Lemma fetch_yf_symbols_raises (symbols : list (string * string))
    (name sym : string) :
  In (name, sym) symbols -> history sym = None ->
  fetch_yf_symbols history symbols = Py.Raised Py.ProviderError.
Proof.
  induction symbols as [| [n s0] rest IH]; intros Hin Hn; [contradiction |].
  simpl. destruct Hin as [[= -> ->] | Hin].
  - rewrite Hn. reflexivity.
  - destruct (history s0); [| reflexivity].
    rewrite (IH Hin Hn). reflexivity.
Qed.

(** X18.  The reference quotes are fetched without a handler: when the
    history of one reference index or of the volatility index cannot be
    fetched, [run_scan] raises and produces no bias and no watchlist. *)
Theorem run_scan_reference_failure (gift : option Q) (preopen : json)
    (sym : string) :
  In sym (map snd US_SYMBOLS ++ map snd ASIA_SYMBOLS ++ [INDIA_VIX]) ->
  history sym = None ->
  run_scan float_of_str history gift preopen = Py.Raised Py.ProviderError.
Proof.
  intros Hin Hn. unfold run_scan.
  destruct (fetch_yf_symbols history US_SYMBOLS) as [us | e] eqn:Eus.
  - cbn [Py.bind].
    destruct (fetch_yf_symbols history ASIA_SYMBOLS) as [asia | e] eqn:Eas.
    + cbn [Py.bind]. unfold fetch_india_vix.
      apply in_app_or in Hin. destruct Hin as [Hin | Hin].
      { apply in_map_iff in Hin. destruct Hin as ([n s0] & <- & Hin).
        rewrite (fetch_yf_symbols_raises _ _ _ Hin Hn) in Eus. discriminate. }
      apply in_app_or in Hin. destruct Hin as [Hin | Hin].
      { apply in_map_iff in Hin. destruct Hin as ([n s0] & <- & Hin).
        rewrite (fetch_yf_symbols_raises _ _ _ Hin Hn) in Eas. discriminate. }
      destruct Hin as [<- | []]. rewrite Hn. reflexivity.
    + cbn [Py.bind].
      destruct (BiasExtra.fetch_yf_symbols_outcome history ASIA_SYMBOLS)
        as [[out Ho] | Hr]; congruence.
  - cbn [Py.bind].
    destruct (BiasExtra.fetch_yf_symbols_outcome history US_SYMBOLS)
      as [[out Ho] | Hr]; congruence.
Qed.

End Providers.

Lemma non_mapping_row_aborts_witness :
  analyze_preopen_and_pick_stocks (fun _ => None) (fun _ => Some [100; 101])
    (JList [JDict [("symbol", JStr "TCS"); ("prev_close", JNum 100);
                   ("open", JNum 103)];
            JStr "header"])
    ["INFY.NS"] 6
  = Py.Raised Py.AttributeError.
Proof.
  apply non_mapping_row_aborts.
  apply Exists_cons_tl, Exists_cons_hd. intros d H. discriminate H.
Defined.

Lemma snapshot_gap_guard_witness :
  let r := JDict [("scrip", JStr "ITC"); ("qty", JNum 700)] in
  let c := mkCandidate (JStr "ITC") 0 0 (Some 0) (Some 700) in
  (0 < prev_close c ->
   gap_pct c = Some ((preopen c - prev_close c) / prev_close c * 100))
  /\ (prev_close c <= 0 -> gap_pct c = Some 0)
  /\ exists d,
       r = JDict d
       /\ (truthy (get d "prev_close") = false ->
           truthy (get d "prevClose") = false ->
           truthy (get d "previousClose") = false ->
           prev_close c = 0 /\ gap_pct c = Some 0)
       /\ (truthy (get d "open") = false ->
           truthy (get d "preopen_price") = false ->
           truthy (get d "preopen") = false ->
           preopen c = prev_close c
           /\ exists g, gap_pct c = Some g /\ g == 0).
Proof.
  intros r c. apply (snapshot_gap_guard (fun _ => None) r c). reflexivity.
Defined.

Lemma run_scan_reference_failure_witness :
  run_scan (fun _ => None)
    (fun s => if String.eqb s "^HSI" then None else Some [100; 101])
    None JNull
  = Py.Raised Py.ProviderError.
Proof.
  apply (run_scan_reference_failure _ _ None JNull "^HSI").
  - simpl. tauto.
  - reflexivity.
Defined.

End GapExtra.

(** ** trend.py: further properties of the ranking *)

Module RankExtra.

Import Trend RankSpec.
Local Open Scope string_scope.
Local Open Scope list_scope.

Lemma filter_split_perm {A : Type} (f : A -> bool) (l : list A) :
  Permutation (filter f l ++ filter (fun x => negb (f x)) l) l.
Proof.
  induction l as [| x l IH]; simpl; [constructor |].
  destruct (f x); simpl.
  - constructor. exact IH.
  - apply Permutation_sym, Permutation_cons_app, Permutation_sym, IH.
Qed.

(** Sorting the frame moves rows, it neither adds nor drops any. *)
Lemma sort_values_desc_perm (rows : list WatchRow) :
  Permutation (sort_values_desc rows) rows.
Proof.
  unfold sort_values_desc.
  eapply perm_trans; [| apply (filter_split_perm (fun w => is_some (score w)))].
  apply Permutation_app_tail, PyFacts.sorted_desc_perm.
Qed.

Lemma head_incl {A : Type} (n : Z) (l : list A) (x : A) :
  In x (head n l) -> In x l.
Proof.
  unfold head. intros H.
  destruct (0 <=? n)%Z;
    match type of H with
    | In _ (firstn ?k _) => rewrite <- (firstn_skipn k l)
    end; apply in_or_app; left; exact H.
Qed.

Lemma head_length {A : Type} (n : Z) (l : list A) :
  (List.length (head n l) <= List.length l)%nat
  /\ ((0 <= n)%Z ->
      List.length (head n l) = Nat.min (Z.to_nat n) (List.length l)).
Proof.
  unfold head. destruct (0 <=? n)%Z eqn:E.
  - rewrite length_firstn. split; [lia | reflexivity].
  - rewrite length_firstn. split; [lia |].
    intros H. apply Z.leb_le in H. congruence.
Qed.

(** What [rank] returns, when it returns. *)
Lemma rank_returned (cands : list GapCandidate) (top_n : Z)
    (rows : list WatchRow) :
  rank cands top_n = Py.Returned rows ->
  rows = head top_n (sort_values_desc (add_columns cands)).
Proof.
  unfold rank. destruct (List.length cands =? 0)%nat eqn:E.
  - apply Nat.eqb_eq in E. destruct cands; [| discriminate].
    intros [= <-].
    change (sort_values_desc (add_columns [])) with (@nil WatchRow).
    unfold head. destruct (0 <=? top_n)%Z; symmetry; apply firstn_nil.
  - destruct (forallb _ cands); [discriminate |]. intros [= <-]. reflexivity.
Qed.

Lemma rank_returns (cands : list GapCandidate) (top_n : Z) (c : GapCandidate)
    (g : Q) :
  In c cands -> gap_pct c = Some g ->
  rank cands top_n
  = Py.Returned (head top_n (sort_values_desc (add_columns cands))).
Proof.
  intros Hin Hg. unfold rank.
  destruct (List.length cands =? 0)%nat eqn:E.
  - apply Nat.eqb_eq in E. destruct cands; [contradiction | discriminate].
  - destruct (forallb _ cands) eqn:F; [| reflexivity].
    rewrite forallb_forall in F. specialize (F c Hin).
    rewrite Hg in F. discriminate F.
Qed.

(** X20.  The ranker only reorders and truncates: every row it returns
    carries the symbol, prior close, price, gap and quantity of one of
    the candidates, unchanged, and it returns no more rows than there are
    candidates. *)
Theorem ranked_rows_from_candidates (cands : list GapCandidate) (top_n : Z)
    (rows : list WatchRow) :
  rank cands top_n = Py.Returned rows ->
  Forall (fun w => exists c,
            In c cands
            /\ w_symbol w = symbol c
            /\ w_prev_close w = prev_close c
            /\ w_preopen w = preopen c
            /\ w_gap_pct w = gap_pct c
            /\ w_qty w = qty c) rows
  /\ (List.length rows <= List.length cands)%nat.
Proof.
  intros H. apply rank_returned in H. subst rows. split.
  - apply Forall_forall. intros w Hw. apply head_incl in Hw.
    apply (Permutation_in _ (sort_values_desc_perm _)) in Hw.
    unfold add_columns in Hw. apply in_map_iff in Hw.
    destruct Hw as (c & <- & Hc). exists c. repeat split. exact Hc.
  - destruct (head_length top_n (sort_values_desc (add_columns cands)))
      as [Hl _].
    rewrite (Permutation_length (sort_values_desc_perm _)) in Hl.
    unfold add_columns in Hl. rewrite length_map in Hl. exact Hl.
Qed.

Lemma ranked_rows_from_candidates_witness :
  let cands := [mkCandidate (JStr "A") 100 105 (Some 5) None;
                mkCandidate (JStr "B") 0 7 None None;
                mkCandidate (JStr "C") 100 92 (Some (-8)) None] in
  exists rows,
    rank cands 2 = Py.Returned rows
    /\ Forall (fun w => exists c,
                 In c cands
                 /\ w_symbol w = symbol c
                 /\ w_prev_close w = prev_close c
                 /\ w_preopen w = preopen c
                 /\ w_gap_pct w = gap_pct c
                 /\ w_qty w = qty c) rows
    /\ (List.length rows <= List.length cands)%nat.
Proof.
  intros cands. eexists. split; [vm_compute; reflexivity |].
  apply (ranked_rows_from_candidates cands 2). vm_compute. reflexivity.
Defined.

Lemma fold_same (f : Q -> Q -> bool) (q0 : Q) (l : list Q) :
  Forall (fun q => q = q0) l ->
  fold_left (fun m y => if f y m then y else m) l q0 = q0.
Proof.
  induction 1 as [| y l Hy Hl IH]; simpl; [reflexivity |].
  subst y. destruct (f q0 q0); exact IH.
Qed.

(** X21.  When every candidate has the same quantity (a single
    candidate included) the normalised quantity of every row is 0: the
    quantity then plays no part in the ranking. *)
Theorem equal_quantities_zero_norm (cands : list GapCandidate) (q0 : Q)
    (top_n : Z) (rows : list WatchRow) :
  Forall (fun c => qty c = Some q0) cands ->
  rank cands top_n = Py.Returned rows ->
  Forall (fun w => exists n, qty_norm w = Some n /\ n == 0) rows.
Proof.
  intros Hq H. apply rank_returned in H. subst rows.
  apply Forall_forall. intros w Hw. apply head_incl in Hw.
  apply (Permutation_in _ (sort_values_desc_perm _)) in Hw.
  unfold add_columns in Hw. apply in_map_iff in Hw.
  destruct Hw as (c & <- & Hc). cbn [qty_norm].
  rewrite Forall_forall in Hq. pose proof (Hq c Hc) as Hqc.
  assert (Hcol : map qty cands = map (fun _ => Some q0) cands).
  { apply map_ext_in. exact Hq. }
  rewrite Hcol, Hqc.
  assert (Hp : present (map (fun _ : GapCandidate => Some q0) cands)
               = map (fun _ => q0) cands).
  { clear. induction cands as [| c l IH]; simpl; [reflexivity |].
    rewrite IH. reflexivity. }
  assert (Hall : forall l : list GapCandidate,
            Forall (fun q => q = q0) (map (fun _ => q0) l)).
  { intros l. apply Forall_forall. intros q Hin. apply in_map_iff in Hin.
    destruct Hin as (_ & <- & _). reflexivity. }
  unfold col_min, col_max. rewrite Hp.
  destruct cands as [| c0 rest]; [contradiction |].
  cbn [map existsb is_some orb].
  rewrite !fold_same by apply Hall. cbn [norm_cell].
  eexists. split; [reflexivity |]. unfold Qdiv. ring.
Qed.

Lemma equal_quantities_zero_norm_witness :
  exists rows,
    rank [mkCandidate (JStr "ONLY") 100 103 (Some 3) (Some 4200)] 6
    = Py.Returned rows
    /\ Forall (fun w => exists n, qty_norm w = Some n /\ n == 0) rows.
Proof.
  eexists. split; [vm_compute; reflexivity |].
  apply (equal_quantities_zero_norm
           [mkCandidate (JStr "ONLY") 100 103 (Some 3) (Some 4200)] 4200 6).
  - repeat constructor.
  - vm_compute. reflexivity.
Defined.

Section Providers.

Variable float_of_str : string -> option Q.
Variable history : string -> option (list Q).

Lemma snapshot_loop_mappings (rows : list json) :
  Forall (fun r => exists d, r = JDict d) rows ->
  exists found,
    snapshot_loop float_of_str rows [] = Py.Returned found
    /\ (Exists (fun r => exists c, row_step float_of_str r = Append c) rows ->
        found <> []).
Proof.
  induction 1 as [| r rest [d ->] _ (found & Hfound & Hne)].
  - exists []. split; [reflexivity | intros H; inversion H].
  - cbn [snapshot_loop].
    destruct (row_step float_of_str (JDict d)) as [c | | e] eqn:E.
    + exists ([c] ++ found). split; [| discriminate].
      apply (GapProps.snapshot_loop_app float_of_str rest [c] found Hfound).
    + exists found. split; [exact Hfound |].
      intros Hex. apply Hne.
      inversion Hex as [? ? [c Hc] | ? ? Ht]; subst; [| exact Ht].
      rewrite E in Hc. discriminate Hc.
    + exfalso. apply (GapProps.row_step_mapping float_of_str d e). exact E.
Qed.

Lemma select_rows_truthy (preopen_data : json) :
  select_rows preopen_data <> [] -> truthy preopen_data = true.
Proof.
  destruct preopen_data as [| b | z | q | s | l | d]; simpl;
    try (intros H; contradiction H; reflexivity).
  - destruct l; [intros H; contradiction H; reflexivity | reflexivity].
  - destruct d; [intros H; contradiction H; reflexivity | reflexivity].
Qed.

(** X19.  When every row of the snapshot is a mapping and at least one
    row gives a candidate, the pool is not consulted: the function
    returns (it does not raise) the same watchlist for every pool and
    every history provider, and for a non-negative [top_n] it returns
    min(top_n, number of snapshot candidates) rows. *)
Theorem snapshot_shadows_pool (preopen_data : json) (pool : list string)
    (top_n : Z) :
  Forall (fun r => exists d, r = JDict d) (select_rows preopen_data) ->
  Exists (fun r => exists c, row_step float_of_str r = Append c)
    (select_rows preopen_data) ->
  (0 <= top_n)%Z ->
  exists cands rows,
    snapshot_candidates float_of_str preopen_data = Py.Returned cands
    /\ cands <> []
    /\ analyze_preopen_and_pick_stocks float_of_str history preopen_data pool
         top_n
       = Py.Returned rows
    /\ List.length rows = Nat.min (Z.to_nat top_n) (List.length cands)
    /\ forall history' pool',
         analyze_preopen_and_pick_stocks float_of_str history' preopen_data
           pool' top_n
         = Py.Returned rows.
Proof.
  intros Hmap Hex Hn.
  destruct (snapshot_loop_mappings _ Hmap) as (cands & Hloop & Hne).
  specialize (Hne Hex).
  assert (Htruthy : truthy preopen_data = true).
  { apply select_rows_truthy. intros Hnil. rewrite Hnil in Hex.
    inversion Hex. }
  assert (Hsnap : snapshot_candidates float_of_str preopen_data
                  = Py.Returned cands).
  { unfold snapshot_candidates. rewrite Htruthy. exact Hloop. }
  assert (Hcollect : forall h p,
            collect_candidates float_of_str h preopen_data p
            = Py.Returned cands).
  { intros h p. unfold collect_candidates. rewrite Hsnap. simpl.
    destruct cands; [contradiction Hne; reflexivity | reflexivity]. }
  assert (Hgap : Forall (fun c => exists g, gap_pct c = Some g) cands).
  { eapply GapProps.snapshot_loop_all; [| exact Hloop].
    intros r c Hc.
    apply (GapProps.row_step_candidate float_of_str r c Hc). }
  exists cands.
  destruct cands as [| c0 rest]; [contradiction Hne; reflexivity |].
  inversion Hgap as [| ? ? [g Hg] _]; subst.
  pose proof (rank_returns (c0 :: rest) top_n c0 g (or_introl eq_refl) Hg)
    as Hrank.
  exists (head top_n (sort_values_desc (add_columns (c0 :: rest)))).
  split; [exact Hsnap |]. split; [exact Hne |]. split; [| split].
  - unfold analyze_preopen_and_pick_stocks. rewrite Hcollect. exact Hrank.
  - destruct (head_length top_n
                (sort_values_desc (add_columns (c0 :: rest)))) as [_ Hl].
    rewrite (Hl Hn), (Permutation_length (sort_values_desc_perm _)).
    unfold add_columns. rewrite length_map. reflexivity.
  - intros h p. unfold analyze_preopen_and_pick_stocks.
    rewrite Hcollect. exact Hrank.
Qed.

(** X22.  On the fallback path (the snapshot gave no candidate) no row
    has a quantity, every normalised quantity is 0, and the score of a
    row with a gap is 0.7 |gap_pct| alone. *)
Theorem fallback_scores_gap_only (preopen_data : json) (pool : list string)
    (top_n : Z) (rows : list WatchRow) :
  snapshot_candidates float_of_str preopen_data = Py.Returned [] ->
  analyze_preopen_and_pick_stocks float_of_str history preopen_data pool top_n
  = Py.Returned rows ->
  Forall (fun w =>
            w_qty w = None
            /\ qty_norm w = Some 0
            /\ match w_gap_pct w with
               | Some g => exists sc, score w = Some sc
                                      /\ sc == (7 # 10) * Qabs g
               | None => score w = None
               end) rows.
Proof.
  intros Hsnap H.
  unfold analyze_preopen_and_pick_stocks, collect_candidates in H.
  rewrite Hsnap in H. cbn [Py.bind List.length Nat.eqb] in H.
  apply rank_returned in H. subst rows.
  assert (Hq : Forall (fun c => qty c = None) (pool_loop history pool [])).
  { apply (GapProps.pool_loop_all history pool).
    intros s c Hc. apply (GapProps.pool_step_candidate history s c Hc). }
  apply Forall_forall. intros w Hw. apply head_incl in Hw.
  apply (Permutation_in _ (sort_values_desc_perm _)) in Hw.
  unfold add_columns in Hw. apply in_map_iff in Hw.
  destruct Hw as (c & <- & Hc).
  cbn [w_qty qty_norm w_gap_pct score].
  assert (Hany : existsb is_some (map qty (pool_loop history pool []))
                 = false).
  { apply RankProps.existsb_is_some_false. apply Forall_map. exact Hq. }
  rewrite Hany. rewrite Forall_forall in Hq.
  split; [exact (Hq c Hc) |]. split; [reflexivity |].
  destruct (gap_pct c) as [g |]; cbn [option_map score_cell];
    [| reflexivity].
  eexists. split; [reflexivity | ring].
Qed.

End Providers.

Lemma snapshot_shadows_pool_witness :
  exists cands rows,
    snapshot_candidates (fun _ => None) example_snapshot = Py.Returned cands
    /\ cands <> []
    /\ analyze_preopen_and_pick_stocks (fun _ => None) (fun _ => None)
         example_snapshot DEFAULT_STOCK_POOL 1
       = Py.Returned rows
    /\ List.length rows = Nat.min (Z.to_nat 1) (List.length cands)
    /\ forall history' pool',
         analyze_preopen_and_pick_stocks (fun _ => None) history'
           example_snapshot pool' 1
         = Py.Returned rows.
Proof.
  apply (snapshot_shadows_pool (fun _ => None) (fun _ => None)
           example_snapshot DEFAULT_STOCK_POOL 1).
  - repeat constructor; eexists; reflexivity.
  - apply Exists_cons_hd. eexists. reflexivity.
  - lia.
Defined.

Lemma fallback_scores_gap_only_witness :
  exists rows,
    analyze_preopen_and_pick_stocks (fun _ => None)
      (fun s => if String.eqb s "TCS.NS" then Some [3500; 3570]
                else Some [0; 12])
      JNull ["TCS.NS"; "NEW.NS"] 6
    = Py.Returned rows
    /\ Forall (fun w =>
                 w_qty w = None
                 /\ qty_norm w = Some 0
                 /\ match w_gap_pct w with
                    | Some g => exists sc, score w = Some sc
                                           /\ sc == (7 # 10) * Qabs g
                    | None => score w = None
                    end) rows.
Proof.
  eexists. split; [vm_compute; reflexivity |].
  apply (fallback_scores_gap_only (fun _ => None)
           (fun s => if String.eqb s "TCS.NS" then Some [3500; 3570]
                     else Some [0; 12])
           JNull ["TCS.NS"; "NEW.NS"] 6).
  - reflexivity.
  - vm_compute. reflexivity.
Defined.

End RankExtra.
